(** * Farm2Market (farm-market-agribuddy): the order/payment flow, chat,
    orders page, authentication context and the create-razorpay-order
    edge function, embedded as state-passing programs.

    The application is asynchronous glue around a hosted store, a hosted
    checkout widget and an edge function.  Every [async] function of the
    source becomes a computation in a state-and-exception monad [M]: the
    state holds the React component state together with the outside world
    (the tables of the hosted store, the replies the network is going to
    give, and the log of everything the user or the backend can observe);
    a rejected promise is the [Rejected] result. *)

From Stdlib Require Import ZArith.
From stdpp Require Import base option list strings gmap sorting pretty.

Local Open Scope Z_scope.

(** ** JavaScript values the code relies on *)

(** A thrown or returned error value.  The code reads [error.message] and, in
    the edge function, tests [error instanceof Error]. *)
Record JsError := { message : string; instanceof_Error : bool }.

(** [new Error(msg)] *)
Definition mkError (msg : string) : JsError :=
  {| message := msg; instanceof_Error := true |}.

(** Completion of an [async] function: the promise resolves or rejects. *)
Inductive Result (A : Type) :=
| Resolved (a : A)
| Rejected (e : JsError).
Arguments Resolved {A} a.
Arguments Rejected {A} e.

(** JavaScript numbers are modelled by [Z]: quantities in whole kilograms and
    prices in whole rupees, on which the arithmetic of the source is exact. *)
Definition number := Z.

(** [x || d] on an optional number: [undefined], [null] and [0] are falsy. *)
Definition num_or (x : option number) (d : number) : number :=
  match x with
  | Some v => if decide (v = 0) then d else v
  | None => d
  end.

(** [String.prototype.trim] on strings of ASCII characters: TAB, LF, VT, FF,
    CR and SPACE are stripped from both ends. *)
Definition is_white_space (c : Ascii.ascii) : bool :=
  let n := Ascii.N_of_ascii c in
  ((9 <=? n) && (n <=? 13) || (n =? 32))%N.

Fixpoint trimStart (s : string) : string :=
  match s with
  | String c s' => if is_white_space c then trimStart s' else s
  | EmptyString => EmptyString
  end.

Fixpoint trimEnd (s : string) : string :=
  match s with
  | String c s' =>
      match trimEnd s' with
      | EmptyString => if is_white_space c then EmptyString else String c EmptyString
      | rest => String c rest
      end
  | EmptyString => EmptyString
  end.

Definition trim (s : string) : string := trimEnd (trimStart s).

(** Truthiness of a string: only the empty string is falsy. *)
Definition truthy (s : string) : bool :=
  match s with EmptyString => false | _ => true end.

(** [`${v}`] of an optional string property. *)
Definition template (v : option string) : string := default "undefined" v.

(** ** The monad of asynchronous computations *)

Definition M (W A : Type) : Type := W → Result A * W.

(** [return a] and [await m; k] through stdpp's monad notations
    [x ← m; k] and [m;; k]. *)
Global Instance M_ret {W} : MRet (M W) := λ A a w, (Resolved a, w).

Global Instance M_bind {W} : MBind (M W) := λ A B k m w,
  match m w with
  | (Resolved a, w') => k a w'
  | (Rejected e, w') => (Rejected e, w')
  end.

(** [throw e] *)
Definition throw {W A} (e : JsError) : M W A := λ w, (Rejected e, w).

(** [try { body } catch (error) { handler }] *)
Definition try_catch {W A} (body : M W A) (handler : JsError → M W A) : M W A :=
  λ w, match body w with
       | (Resolved a, w') => (Resolved a, w')
       | (Rejected e, w') => handler e w'
       end.

(** [try { body } finally { cleanup }]: the cleanup always runs, and the
    completion of the body is kept unless the cleanup itself throws. *)
Definition try_finally {W A} (body : M W A) (cleanup : M W unit) : M W A :=
  λ w, let '(r, w') := body w in
       match cleanup w' with
       | (Resolved _, w'') => (r, w'')
       | (Rejected e, w'') => (Rejected e, w'')
       end.

Definition gets {W A} (f : W → A) : M W A := λ w, (Resolved (f w), w).
Definition modify {W} (f : W → W) : M W unit := λ w, (Resolved tt, f w).

(** [return;] in the middle of a function body is written as the last
    statement of the branch that takes it. *)
Definition skip {W} : M W unit := mret tt.


(** [await p] of a promise whose completion is already known. *)
Definition await {W A} (p : Result A) : M W A := λ w, (p, w).

(** ** Rows of the hosted store

    One module per table, with the columns the code reads or writes.
    Timestamps are the store's [timestamptz] values, modelled by [Z]. *)

Inductive Role := farmer | buyer | admin.

Inductive OrderStatus := pending | paid | delivered | cancelled.

Global Instance Role_eq_dec : EqDecision Role.
Proof. solve_decision. Defined.
Global Instance OrderStatus_eq_dec : EqDecision OrderStatus.
Proof. solve_decision. Defined.

Module Crop.
(** [interface Crop], plus the [available] column that the checkout
    handler writes. *)
Record t := {
  id : string;
  name : string;
  description : string;
  price_per_kg : number;
  quantity_kg : number;
  image_url : option string;
  location : option string;
  farmer_id : string;
  available : bool;
}.

(** The object passed to [.update(...)] by the checkout handler. *)
Record Patch := { patch_quantity_kg : number; patch_available : bool }.

Definition apply (p : Patch) (c : t) : t :=
  {| id := id c; name := name c; description := description c;
     price_per_kg := price_per_kg c; quantity_kg := patch_quantity_kg p;
     image_url := image_url c; location := location c;
     farmer_id := farmer_id c; available := patch_available p |}.
End Crop.

Module Order.
(** The object passed to [.insert(...)] by the checkout handler.  A field
    read through [?.] or from a property the object may lack can be
    [undefined]. *)
Record Insert := {
  ins_buyer_id : option string;
  ins_farmer_id : option string;
  ins_crop_id : option string;
  ins_quantity_kg : number;
  ins_total_price : number;
  ins_status : OrderStatus;
  ins_delivery_address : string;
  ins_razorpay_order_id : option string;
  ins_razorpay_payment_id : option string;
}.

(** A stored row: the inserted columns, plus the [id] and [created_at]
    the store generates. *)
Record t := {
  id : string;
  buyer_id : option string;
  farmer_id : option string;
  crop_id : option string;
  quantity_kg : number;
  total_price : number;
  status : OrderStatus;
  created_at : Z;
  delivery_address : option string;
  razorpay_order_id : option string;
  razorpay_payment_id : option string;
}.

Definition row (new_id : string) (now : Z) (i : Insert) : t :=
  {| id := new_id; buyer_id := ins_buyer_id i; farmer_id := ins_farmer_id i;
     crop_id := ins_crop_id i; quantity_kg := ins_quantity_kg i;
     total_price := ins_total_price i; status := ins_status i;
     created_at := now; delivery_address := Some (ins_delivery_address i);
     razorpay_order_id := ins_razorpay_order_id i;
     razorpay_payment_id := ins_razorpay_payment_id i |}.
End Order.

Module ChatRoom.
(** [interface ChatRoom] *)
Record t := {
  id : string;
  farmer_id : string;
  buyer_id : string;
  crop_id : option string;
  updated_at : Z;
}.

Record Insert := {
  ins_buyer_id : string;
  ins_farmer_id : string;
  ins_crop_id : string;
}.

Definition row (new_id : string) (now : Z) (i : Insert) : t :=
  {| id := new_id; farmer_id := ins_farmer_id i; buyer_id := ins_buyer_id i;
     crop_id := Some (ins_crop_id i); updated_at := now |}.

Definition touch (now : Z) (c : t) : t :=
  {| id := id c; farmer_id := farmer_id c; buyer_id := buyer_id c;
     crop_id := crop_id c; updated_at := now |}.
End ChatRoom.

Module Message.
(** [interface Message] *)
Record t := {
  id : string;
  chat_id : string;
  sender_id : string;
  content : string;
  created_at : Z;
  read : bool;
}.

Record Insert := {
  ins_chat_id : string;
  ins_sender_id : string;
  ins_content : string;
}.

Definition row (new_id : string) (now : Z) (i : Insert) : t :=
  {| id := new_id; chat_id := ins_chat_id i; sender_id := ins_sender_id i;
     content := ins_content i; created_at := now; read := false |}.
End Message.

Module Profile.
(** A row of [profiles]: the columns the authentication context upserts
    and selects. *)
Record t := {
  id : string;
  phone : option string;
  role : option Role;
}.
End Profile.

Module User.
(** The signed-in user object handed out by the identity provider: the
    authentication context imports its type, [User], from [firebase/auth].
    These are the properties the code reads.  The authentication context
    and the chat page read [uid]; the crop page and the orders page read
    [id], a property that type does not declare: on the objects of the
    provider the read yields [undefined], here [None]. *)
Record t := {
  uid : string;
  phoneNumber : option string;
  email : option string;
  id : option string;
}.
End User.

(** ** The hosted store, as seen through its client library *)

Module Supabase.
Record Store := {
  crops : list Crop.t;
  orders : list Order.t;
  chats : list ChatRoom.t;
  messages : list Message.t;
  profiles : list Profile.t;
  tick : Z;  (** the store's clock, also the seed of generated ids *)
}.

(** What every query resolves to: [{ data, error }]. *)
Record PgResult (A : Type) := { data : option A; error : option JsError }.
Arguments data {A} _.
Arguments error {A} _.

Definition ok {A} (a : A) : PgResult A := {| data := Some a; error := None |}.
Definition no_content {A} : PgResult A := {| data := None; error := None |}.
Definition failed {A} (e : JsError) : PgResult A :=
  {| data := None; error := Some e |}.

(** [.single()]: the result must be exactly one row, otherwise the query
    resolves to an error and no data. *)
Definition PGRST116 : JsError :=
  {| message := "JSON object requested, multiple (or no) rows returned";
     instanceof_Error := true |}.

Definition single {A} (rows : list A) : PgResult A :=
  match rows with
  | [row] => ok row
  | _ => failed PGRST116
  end.

(** [.order(column, { ascending })] on a timestamp column. *)
Definition ascending {A} (column : A → Z) : relation A :=
  λ a b, column a ≤ column b.
Definition descending {A} (column : A → Z) : relation A :=
  λ a b, column b ≤ column a.

Global Instance ascending_dec {A} (column : A → Z) : RelDecision (ascending column).
Proof. intros a b. unfold ascending. apply _. Defined.
Global Instance descending_dec {A} (column : A → Z) : RelDecision (descending column).
Proof. intros a b. unfold descending. apply _. Defined.

Definition fresh_id (table : string) (st : Store) : string :=
  table +:+ "-" +:+ pretty (tick st).

(** [from('crops').select('*').eq('id', id).single()] *)
Definition crops_by_id (id : string) (st : Store) : PgResult Crop.t * Store :=
  (single (filter (λ c, Crop.id c = id) (crops st)), st).

(** [from('crops').update(patch).eq('id', id)] *)
Definition crops_update (patch : Crop.Patch) (id : option string) (st : Store)
  : PgResult unit * Store :=
  (no_content,
   {| crops := (λ c, if decide (Some (Crop.id c) = id) then Crop.apply patch c else c)
                 <$> crops st;
      orders := orders st; chats := chats st; messages := messages st;
      profiles := profiles st; tick := tick st |}).

(** [from('orders').insert(payload)] *)
Definition orders_insert (payload : Order.Insert) (st : Store)
  : PgResult unit * Store :=
  (no_content,
   {| crops := crops st;
      orders := orders st ++ [Order.row (fresh_id "order" st) (tick st) payload];
      chats := chats st; messages := messages st; profiles := profiles st;
      tick := tick st + 1 |}).

(** [from('orders').select('*').or(`buyer_id.eq.${v},farmer_id.eq.${v}`)
      .order('created_at', { ascending: false })] *)
Definition orders_of (v : string) (st : Store) : PgResult (list Order.t) * Store :=
  (ok (merge_sort (descending Order.created_at)
         (filter (λ o, Order.buyer_id o = Some v ∨ Order.farmer_id o = Some v)
                 (orders st))),
   st).

(** [from('chats').select('*').or(`buyer_id.eq.${v},farmer_id.eq.${v}`)
      .order('updated_at', { ascending: false })] *)
Definition chats_of (v : string) (st : Store) : PgResult (list ChatRoom.t) * Store :=
  (ok (merge_sort (descending ChatRoom.updated_at)
         (filter (λ c, ChatRoom.buyer_id c = v ∨ ChatRoom.farmer_id c = v)
                 (chats st))),
   st).

(** The rows selected by
    [.eq('buyer_id', b).eq('farmer_id', f).eq('crop_id', c)]. *)
Definition chats_matching (b f c : string) (rows : list ChatRoom.t) : list ChatRoom.t :=
  filter (λ r, ChatRoom.buyer_id r = b ∧ ChatRoom.farmer_id r = f
               ∧ ChatRoom.crop_id r = Some c) rows.

(** [from('chats').select('*').eq(...).eq(...).eq(...).single()] *)
Definition chats_by_triple (b f c : string) (st : Store)
  : PgResult ChatRoom.t * Store :=
  (single (chats_matching b f c (chats st)), st).

(** [from('chats').insert(payload).select().single()] *)
Definition chats_insert (payload : ChatRoom.Insert) (st : Store)
  : PgResult ChatRoom.t * Store :=
  let new_row := ChatRoom.row (fresh_id "chat" st) (tick st) payload in
  (ok new_row,
   {| crops := crops st; orders := orders st; chats := chats st ++ [new_row];
      messages := messages st; profiles := profiles st; tick := tick st + 1 |}).

(** [from('chats').update({ updated_at }).eq('id', id)] *)
Definition chats_touch (id : string) (st : Store) : PgResult unit * Store :=
  (no_content,
   {| crops := crops st; orders := orders st;
      chats := (λ c, if decide (ChatRoom.id c = id)
                     then ChatRoom.touch (tick st) c else c) <$> chats st;
      messages := messages st; profiles := profiles st; tick := tick st + 1 |}).

(** [from('messages').select('*').eq('chat_id', chatId)
      .order('created_at', { ascending: true })] *)
Definition messages_of (chatId : string) (st : Store)
  : PgResult (list Message.t) * Store :=
  (ok (merge_sort (ascending Message.created_at)
         (filter (λ m, Message.chat_id m = chatId) (messages st))),
   st).

(** [from('messages').insert(payload)] *)
Definition messages_insert (payload : Message.Insert) (st : Store)
  : PgResult unit * Store :=
  (no_content,
   {| crops := crops st; orders := orders st; chats := chats st;
      messages := messages st ++ [Message.row (fresh_id "message" st) (tick st) payload];
      profiles := profiles st; tick := tick st + 1 |}).

(** [from('profiles').upsert(row, { onConflict: 'id' })] *)
Definition upsert_row (p : Profile.t) (rows : list Profile.t) : list Profile.t :=
  if decide (Exists (λ r, Profile.id r = Profile.id p) rows)
  then (λ r, if decide (Profile.id r = Profile.id p) then p else r) <$> rows
  else rows ++ [p].

Definition profiles_upsert (p : Profile.t) (st : Store) : PgResult unit * Store :=
  (no_content,
   {| crops := crops st; orders := orders st; chats := chats st;
      messages := messages st; profiles := upsert_row p (profiles st);
      tick := tick st |}).

(** [from('profiles').select('role').eq('id', id).single()]: the data is
    the object [{ role }]. *)
Definition profiles_role (id : string) (st : Store)
  : PgResult (option Role) * Store :=
  (single (Profile.role <$> filter (λ r, Profile.id r = id) (profiles st)), st).
End Supabase.

(** ** The [create-razorpay-order] edge function *)

Module CreateRazorpayOrder.
(** The JSON body the function destructures: [{ amount, cropId, quantity }]. *)
Record Body := { amount : number; cropId : option string; quantity : number }.

(** The incoming request: its method, and what [req.json()] settles to. *)
Record HttpRequest := { method : string; json : Result Body }.

Record Notes := { notes_cropId : option string; notes_quantity : number }.

(** [orderData], the order submitted to the payment API. *)
Record OrderData := {
  order_amount : number;
  order_currency : string;
  order_receipt : string;
  order_notes : Notes;
}.

(** [btoa(plain)], kept symbolic. *)
Inductive Base64 := btoa (plain : string).

(** One call of [fetch]. *)
Record Fetch := {
  url : string;
  fetch_method : string;
  content_type : string;
  authorization : Base64;  (** [`Basic ${credentials}`] *)
  fetch_body : OrderData;  (** [JSON.stringify(orderData)] *)
}.

(** The order object the payment API answers with. *)
Record RazorpayOrder := {
  id : string;
  created_amount : number;
  created_currency : string;
  created_receipt : string;
}.

(** How the payment API behaves on a request. *)
Inductive Gateway :=
| Unreachable (e : JsError)      (** [fetch] rejects *)
| Refused (errorText : string)   (** a response with [ok = false] *)
| Created (order_id : string)    (** [ok], the body is the created order *)
| Garbled (e : JsError).         (** [ok], but [response.json()] rejects *)

Record FetchResponse := {
  ok : bool;
  text : string;
  response_json : Result RazorpayOrder;
}.

Inductive ResponseBody :=
| NoBody
| OrderJson (order : RazorpayOrder)
| ErrorJson (error : string).

(** [new Response(body, { status, headers })]; the status defaults to 200. *)
Record Response := { status : Z; body : ResponseBody }.

Inductive Effect :=
| ConsoleError (label : string) (text : string)
| Fetched (request : Fetch).

(** The function's world: [Deno.env], the clock behind [Date.now()], the
    payment API, and what the function has done so far. *)
Record World := {
  Deno_env : gmap string string;
  now : Z;
  gateway : Gateway;
  done : list Effect;
}.

Definition emit (e : Effect) : M World unit :=
  modify (λ w, {| Deno_env := Deno_env w; now := now w; gateway := gateway w;
                  done := done w ++ [e] |}).

Definition console_error (label text : string) : M World unit :=
  emit (ConsoleError label text).

Definition Deno_env_get (name : string) : M World (option string) :=
  gets (λ w, Deno_env w !! name).

Definition Date_now : M World Z := gets now.

Definition fetch (request : Fetch) : M World FetchResponse :=
  emit (Fetched request);;
  g ← gets gateway;
  match g with
  | Unreachable e => throw e
  | Refused errorText =>
      mret {| ok := false; text := errorText;
              response_json := Rejected (mkError "Unexpected token") |}
  | Created order_id =>
      mret {| ok := true; text := "";
              response_json :=
                Resolved {| id := order_id;
                            created_amount := order_amount (fetch_body request);
                            created_currency := order_currency (fetch_body request);
                            created_receipt := order_receipt (fetch_body request) |} |}
  | Garbled e => mret {| ok := true; text := ""; response_json := Rejected e |}
  end.

(** [!value] on an environment variable: unset and empty are falsy. *)
Definition missing (value : option string) : bool :=
  match value with
  | Some v => negb (truthy v)
  | None => true
  end.

(** The handler passed to [serve]. *)
Definition handler (req : HttpRequest) : M World Response :=
  if decide (method req = "OPTIONS") then
    mret {| status := 200; body := NoBody |}
  else
    try_catch
      (b ← await (json req);
       razorpayKeyId ← Deno_env_get "Razorpay_apikey";
       razorpayKeySecret ← Deno_env_get "Razorpay_key_secret";
       if missing razorpayKeyId || missing razorpayKeySecret then
         throw (mkError "Razorpay credentials not configured")
       else
         t ← Date_now;
         let orderData :=
           {| order_amount := amount b * 100;
              order_currency := "INR";
              order_receipt := "order_" +:+ pretty t;
              order_notes := {| notes_cropId := cropId b;
                                notes_quantity := quantity b |} |} in
         let credentials :=
           btoa (default "" razorpayKeyId +:+ ":" +:+ default "" razorpayKeySecret) in
         response ← fetch {| url := "https://api.razorpay.com/v1/orders";
                             fetch_method := "POST";
                             content_type := "application/json";
                             authorization := credentials;
                             fetch_body := orderData |};
         if negb (ok response) then
           let errorText := text response in
           console_error "Razorpay error:" errorText;;
           throw (mkError "Failed to create Razorpay order")
         else
           order ← await (response_json response);
           mret {| status := 200; body := OrderJson order |})
      (λ error,
         let errorMessage :=
           if instanceof_Error error then message error else "Unknown error" in
         console_error "Error:" errorMessage;;
         mret {| status := 500; body := ErrorJson errorMessage |}).
End CreateRazorpayOrder.

(** ** The browser side: what a page can do and what can be observed *)

(** A user-visible text: [t(key)], a translation looked up by the language
    context, or a string shown as it is. *)
Inductive Text :=
| t (key : string)
| verbatim (s : string).

(** The argument of [toast(...)]. *)
Record Toast := {
  title : Text;
  description : option Text;
  variant : option string;
}.

(** [import.meta.env.NAME], fixed when the bundle is built. *)
Inductive BuildEnv := import_meta_env (name : string).

Module Razorpay.
(** The argument the widget passes to the success handler. *)
Record Response := {
  razorpay_order_id : option string;
  razorpay_payment_id : option string;
}.

(** The success handler is a closure of the crop page: these are the
    variables of [handlePayment]'s scope that its body reads. *)
Record Closure := {
  user : User.t;
  crop : option Crop.t;
  quantity : number;
  totalPrice : number;
  address : string;
}.

(** The options handed to [new window.Razorpay(options)]. *)
Record Options := {
  key : BuildEnv;
  amount : number;
  currency : string;
  name : string;
  description : string;
  order_id : string;
  handler : Closure;
  prefill_contact : option string;
  theme_color : string;
}.
End Razorpay.

(** The calls a page makes to the hosted backend. *)
Inductive Request :=
| CropsById (id : string)
| CropsUpdate (patch : Crop.Patch) (id : option string)
| OrdersInsert (payload : Order.Insert)
| OrdersOf (v : string)
| ChatsOf (v : string)
| ChatsByTriple (b f c : string)
| ChatsInsert (payload : ChatRoom.Insert)
| ChatsTouch (id : string)
| MessagesOf (chatId : string)
| MessagesInsert (payload : Message.Insert)
| ProfilesUpsert (p : Profile.t)
| ProfilesRole (id : string)
| FunctionsInvoke (name : string) (body : CreateRazorpayOrder.Body).

(** The type of [data] each call resolves to. *)
Definition reply (r : Request) : Type :=
  match r with
  | CropsById _ => Crop.t
  | OrdersOf _ => list Order.t
  | ChatsOf _ => list ChatRoom.t
  | ChatsByTriple _ _ _ | ChatsInsert _ => ChatRoom.t
  | MessagesOf _ => list Message.t
  | ProfilesRole _ => option Role
  | FunctionsInvoke _ _ => CreateRazorpayOrder.RazorpayOrder
  | CropsUpdate _ _ | OrdersInsert _ | ChatsTouch _ | MessagesInsert _
  | ProfilesUpsert _ => unit
  end.

Inductive Effect :=
| Toasted (toast : Toast)
| Navigated (path : string)
| ConsoleError (label : string) (e : JsError)
| Requested (r : Request)
| RazorpayOpened (options : Razorpay.Options).

(** Everything outside the page.  [faults] says, for each coming call to the
    backend in turn, whether the call fails before being served ([Some e]:
    it resolves to [{ data: null, error: e }] and the backend is left
    untouched) or is served ([None], also once the list is exhausted). *)
Record Env := {
  store : Supabase.Store;
  edge : CreateRazorpayOrder.World;
  faults : list (option JsError);
  log : list Effect;
}.

(** A mounted component: its [useState] cells and the outside. *)
Record Client (S : Type) := { page : S; env : Env }.
Arguments page {S} _.
Arguments env {S} _.

Section Browser.
Context {S : Type}.

(** A [setX(...)] of the component. *)
Definition setState (f : S → S) : M (Client S) unit :=
  modify (λ w, {| page := f (page w); env := env w |}).

Definition emit (e : Effect) : M (Client S) unit :=
  modify (λ w, {| page := page w;
                  env := {| store := store (env w); edge := edge (env w);
                            faults := faults (env w);
                            log := log (env w) ++ [e] |} |}).

Definition toast (x : Toast) : M (Client S) unit := emit (Toasted x).
Definition navigate (path : string) : M (Client S) unit := emit (Navigated path).
Definition console_error (label : string) (e : JsError) : M (Client S) unit :=
  emit (ConsoleError label e).

(** The edge function as reached through [supabase.functions.invoke]: a
    POST with the body as JSON; a 2xx response gives its JSON as data,
    any other status gives an error. *)
Definition FunctionsHttpError : JsError :=
  mkError "Edge Function returned a non-2xx status code".

Definition invoke_edge (name : string) (body : CreateRazorpayOrder.Body)
    (w : CreateRazorpayOrder.World)
  : Supabase.PgResult CreateRazorpayOrder.RazorpayOrder * CreateRazorpayOrder.World :=
  if decide (name = "create-razorpay-order") then
    match CreateRazorpayOrder.handler
            {| CreateRazorpayOrder.method := "POST";
               CreateRazorpayOrder.json := Resolved body |} w with
    | (Resolved {| CreateRazorpayOrder.status := 200;
                   CreateRazorpayOrder.body := CreateRazorpayOrder.OrderJson order |}, w') =>
        (Supabase.ok order, w')
    | (Resolved {| CreateRazorpayOrder.status := 200 |}, w') =>
        (Supabase.no_content, w')
    | (Resolved _, w') => (Supabase.failed FunctionsHttpError, w')
    | (Rejected e, w') => (Supabase.failed e, w')
    end
  else (Supabase.failed FunctionsHttpError, w).

(** How the backend serves a call. *)
Definition serve (r : Request) (st : Supabase.Store) (ed : CreateRazorpayOrder.World)
  : Supabase.PgResult (reply r) * Supabase.Store * CreateRazorpayOrder.World :=
  match r with
  | CropsById id => (Supabase.crops_by_id id st, ed)
  | CropsUpdate patch id => (Supabase.crops_update patch id st, ed)
  | OrdersInsert payload => (Supabase.orders_insert payload st, ed)
  | OrdersOf v => (Supabase.orders_of v st, ed)
  | ChatsOf v => (Supabase.chats_of v st, ed)
  | ChatsByTriple b f c => (Supabase.chats_by_triple b f c st, ed)
  | ChatsInsert payload => (Supabase.chats_insert payload st, ed)
  | ChatsTouch id => (Supabase.chats_touch id st, ed)
  | MessagesOf chatId => (Supabase.messages_of chatId st, ed)
  | MessagesInsert payload => (Supabase.messages_insert payload st, ed)
  | ProfilesUpsert p => (Supabase.profiles_upsert p st, ed)
  | ProfilesRole id => (Supabase.profiles_role id st, ed)
  | FunctionsInvoke name body =>
      let '(res, ed') := invoke_edge name body ed in (res, st, ed')
  end.

(** [await supabase. ...]: the call is logged, then fails or is served.
    The client library never rejects: a failure is the [error] field. *)
Definition supabase (r : Request) : M (Client S) (Supabase.PgResult (reply r)) :=
  λ w,
    let e := env w in
    let lg := log e ++ [Requested r] in
    match faults e with
    | Some err :: rest =>
        (Resolved (Supabase.failed err),
         {| page := page w;
            env := {| store := store e; edge := edge e; faults := rest; log := lg |} |})
    | served =>
        let '(res, st', ed') := serve r (store e) (edge e) in
        (Resolved res,
         {| page := page w;
            env := {| store := st'; edge := ed'; faults := tail served; log := lg |} |})
    end.

(** [new window.Razorpay(options).open()] with the checkout script loaded. *)
Definition razorpay_open (options : Razorpay.Options) : M (Client S) unit :=
  emit (RazorpayOpened options).
End Browser.

(** ** The crop page: [CropDetail] *)

Module CropDetail.
Record State := {
  crop : option Crop.t;
  quantity : number;
  address : string;
  loading : bool;
  paying : bool;
}.

Definition setCrop (c : option Crop.t) : M (Client State) unit :=
  setState (λ s, {| crop := c; quantity := quantity s; address := address s;
                    loading := loading s; paying := paying s |}).
Definition setLoading (b : bool) : M (Client State) unit :=
  setState (λ s, {| crop := crop s; quantity := quantity s; address := address s;
                    loading := b; paying := paying s |}).
Definition setPaying (b : bool) : M (Client State) unit :=
  setState (λ s, {| crop := crop s; quantity := quantity s; address := address s;
                    loading := loading s; paying := b |}).

Definition error_toast (error : JsError) : Toast :=
  {| title := t "error"; description := Some (verbatim (message error));
     variant := Some "destructive" |}.

Definition fetchCrop (id : string) : M (Client State) unit :=
  try_finally
    (try_catch
       (r ← supabase (CropsById id);
        match Supabase.error r with
        | Some error => throw error
        | None => setCrop (Supabase.data r)
        end)
       (λ error, toast (error_toast error)))
    (setLoading false).

(** [const totalPrice = crop ? crop.price_per_kg * quantity : 0] *)
Definition totalPrice (s : State) : number :=
  match crop s with
  | Some c => Crop.price_per_kg c * quantity s
  | None => 0
  end.

(** The success handler given to the checkout widget, run on the widget's
    response with the variables it has captured. *)
Definition handler (cl : Razorpay.Closure) (response : Razorpay.Response)
  : M (Client State) unit :=
  let user := Razorpay.user cl in
  let crop := Razorpay.crop cl in
  let quantity := Razorpay.quantity cl in
  r ← supabase (OrdersInsert
        {| Order.ins_buyer_id := User.id user;
           Order.ins_farmer_id := Crop.farmer_id <$> crop;
           Order.ins_crop_id := Crop.id <$> crop;
           Order.ins_quantity_kg := quantity;
           Order.ins_total_price := Razorpay.totalPrice cl;
           Order.ins_status := paid;
           Order.ins_delivery_address := Razorpay.address cl;
           Order.ins_razorpay_order_id := Razorpay.razorpay_order_id response;
           Order.ins_razorpay_payment_id := Razorpay.razorpay_payment_id response |});
  match Supabase.error r with
  | Some dbError => throw dbError
  | None =>
      supabase (CropsUpdate
        {| Crop.patch_quantity_kg := num_or (Crop.quantity_kg <$> crop) 0 - quantity;
           Crop.patch_available :=
             bool_decide (num_or (Crop.quantity_kg <$> crop) 0 - quantity > 0) |}
        (Crop.id <$> crop));;
      toast {| title := t "paymentSuccess"; description := Some (t "orderPlaced");
               variant := None |};;
      navigate "/orders"
  end.

Definition handlePayment (user : option User.t) : M (Client State) unit :=
  s ← gets page;
  match user with
  | None =>
      toast {| title := t "loginRequired"; description := None;
               variant := Some "destructive" |};;
      navigate "/auth"
  | Some user =>
      if negb (truthy (trim (address s))) then
        toast {| title := t "addressRequired"; description := None;
                 variant := Some "destructive" |}
      else if decide (quantity s > num_or (Crop.quantity_kg <$> crop s) 0) then
        toast {| title := t "insufficientStock"; description := None;
                 variant := Some "destructive" |}
      else
        setPaying true;;
        try_finally
          (try_catch
             (r ← supabase (FunctionsInvoke "create-razorpay-order"
                    {| CreateRazorpayOrder.amount := totalPrice s;
                       CreateRazorpayOrder.cropId := Crop.id <$> crop s;
                       CreateRazorpayOrder.quantity := quantity s |});
              match Supabase.error r with
              | Some orderError => throw orderError
              | None =>
                  match Supabase.data r with
                  | None =>
                      throw (mkError "Cannot read properties of null (reading 'amount')")
                  | Some orderData =>
                      razorpay_open
                        {| Razorpay.key := import_meta_env "VITE_RAZORPAY_KEY_ID";
                           Razorpay.amount := CreateRazorpayOrder.created_amount orderData;
                           Razorpay.currency := "INR";
                           Razorpay.name := "Farm2Market";
                           Razorpay.description :=
                             "Purchase: " +:+ template (Crop.name <$> crop s);
                           Razorpay.order_id := CreateRazorpayOrder.id orderData;
                           Razorpay.handler :=
                             {| Razorpay.user := user; Razorpay.crop := crop s;
                                Razorpay.quantity := quantity s;
                                Razorpay.totalPrice := totalPrice s;
                                Razorpay.address := address s |};
                           Razorpay.prefill_contact := User.email user;
                           Razorpay.theme_color := "#16a34a" |}
                  end
              end)
             (λ error, toast (error_toast error)))
          (setPaying false)
  end.

Definition setQuantity (q : number) : M (Client State) unit :=
setState (λ s, {| crop := crop s; quantity := q; address := address s;
                  loading := loading s; paying := paying s |}).

(** The [onChange] of the quantity input, in the render where the loaded
    crop is [c]; [value] is [Number(e.target.value)]. *)
Definition onQuantityChange (c : Crop.t) (value : number) : M (Client State) unit :=
setQuantity (Z.min value (Crop.quantity_kg c)).
End CropDetail.

(** ** The chat page: [Chat] *)

Module Chat.
Record State := {
  chats : list ChatRoom.t;
  activeChat : option string;
  messages : list Message.t;
  newMessage : string;
  loading : bool;
}.

Definition setChats (f : list ChatRoom.t → list ChatRoom.t) : M (Client State) unit :=
  setState (λ s, {| chats := f (chats s); activeChat := activeChat s;
                    messages := messages s; newMessage := newMessage s;
                    loading := loading s |}).
Definition setActiveChat (c : option string) : M (Client State) unit :=
  setState (λ s, {| chats := chats s; activeChat := c; messages := messages s;
                    newMessage := newMessage s; loading := loading s |}).
Definition setMessages (f : list Message.t → list Message.t) : M (Client State) unit :=
  setState (λ s, {| chats := chats s; activeChat := activeChat s;
                    messages := f (messages s); newMessage := newMessage s;
                    loading := loading s |}).
Definition setNewMessage (x : string) : M (Client State) unit :=
  setState (λ s, {| chats := chats s; activeChat := activeChat s;
                    messages := messages s; newMessage := x;
                    loading := loading s |}).
Definition setLoading (b : bool) : M (Client State) unit :=
  setState (λ s, {| chats := chats s; activeChat := activeChat s;
                    messages := messages s; newMessage := newMessage s;
                    loading := b |}).

Definition error_toast (error : JsError) : Toast :=
  {| title := t "error"; description := Some (verbatim (message error));
     variant := Some "destructive" |}.

Definition fetchChats (user : option User.t) : M (Client State) unit :=
  try_finally
    (try_catch
       (r ← supabase (ChatsOf (template (User.uid <$> user)));
        match Supabase.error r with
        | Some error => throw error
        | None => setChats (λ _, default [] (Supabase.data r))
        end)
       (λ error, console_error "Fetch chats error:" error))
    (setLoading false).

Definition findOrCreateChat (user : option User.t) (farmerId cropId : string)
  : M (Client State) unit :=
  match user with
  | None => skip
  | Some user =>
      try_catch
        (existing ← supabase (ChatsByTriple (User.uid user) farmerId cropId);
         match Supabase.data existing with
         | Some existingChat => setActiveChat (Some (ChatRoom.id existingChat))
         | None =>
             created ← supabase (ChatsInsert
                          {| ChatRoom.ins_buyer_id := User.uid user;
                             ChatRoom.ins_farmer_id := farmerId;
                             ChatRoom.ins_crop_id := cropId |});
             match Supabase.error created with
             | Some error => throw error
             | None =>
                 match Supabase.data created with
                 | Some newChat =>
                     setChats (λ prev, newChat :: prev);;
                     setActiveChat (Some (ChatRoom.id newChat))
                 | None => skip
                 end
             end
         end)
        (λ error,
           console_error "Create chat error:" error;;
           toast (error_toast error))
  end.

Definition fetchMessages (chatId : string) : M (Client State) unit :=
  try_catch
    (r ← supabase (MessagesOf chatId);
     match Supabase.error r with
     | Some error => throw error
     | None => setMessages (λ _, default [] (Supabase.data r))
     end)
    (λ error, console_error "Fetch messages error:" error).

(** The callback of the change-notification subscription. *)
Definition onInsert (payload_new : Message.t) : M (Client State) unit :=
  setMessages (λ prev, prev ++ [payload_new]).

(** The update after a sent message stamps the chat with the time of the
    call; the browser and the store share one clock here. *)
Definition sendMessage (user : option User.t) : M (Client State) unit :=
  s ← gets page;
  match activeChat s, user with
  | Some chat, Some user =>
      if negb (truthy (trim (newMessage s))) || negb (truthy chat) then skip
      else
        try_catch
          (r ← supabase (MessagesInsert
                 {| Message.ins_chat_id := chat;
                    Message.ins_sender_id := User.uid user;
                    Message.ins_content := trim (newMessage s) |});
           match Supabase.error r with
           | Some error => throw error
           | None =>
               setNewMessage "";;
               supabase (ChatsTouch chat);;
               skip
           end)
          (λ error, toast (error_toast error))
  | _, _ => skip
  end.
End Chat.

(** ** The orders page: [Orders] *)

(** The string a status is at run time. *)
Definition status_string (s : OrderStatus) : string :=
  match s with
  | pending => "pending"
  | paid => "paid"
  | delivered => "delivered"
  | cancelled => "cancelled"
  end.

Module Orders.
Inductive Icon := Clock | CheckCircle | Truck | XCircle.

Record StatusEntry := { icon : Icon; color : string; label : string }.

Definition statusConfig : gmap string StatusEntry :=
  {[ "pending" := {| icon := Clock; color := "bg-yellow-500"; label := "pending" |};
     "paid" := {| icon := CheckCircle; color := "bg-green-500"; label := "paid" |};
     "delivered" := {| icon := Truck; color := "bg-blue-500"; label := "delivered" |};
     "cancelled" := {| icon := XCircle; color := "bg-red-500"; label := "cancelled" |} ]}.

Record State := { orders : list Order.t; loading : bool }.

Definition setOrders (x : list Order.t) : M (Client State) unit :=
  setState (λ s, {| orders := x; loading := loading s |}).
Definition setLoading (b : bool) : M (Client State) unit :=
  setState (λ s, {| orders := orders s; loading := b |}).

Definition fetchOrders (user : option User.t) : M (Client State) unit :=
  try_finally
    (try_catch
       (r ← supabase (OrdersOf (template (user ≫= User.id)));
        match Supabase.error r with
        | Some error => throw error
        | None => setOrders (default [] (Supabase.data r))
        end)
       (λ error,
          toast {| title := t "error";
                   description := Some (verbatim (message error));
                   variant := Some "destructive" |}))
    (setLoading false).

(** The status badge of one order card. *)
Record Badge := { badge_class : string; badge_icon : Icon; badge_text : Text }.

(** The body of [orders.map((order) => ...)], as far as the status goes:
    [statusConfig[order.status]], then its [icon], [color] and [label].
    Reading a property of [undefined] throws. *)
Definition render_status (order : Order.t) : Result Badge :=
  match statusConfig !! status_string (Order.status order) with
  | Some status =>
      Resolved {| badge_class := color status +:+ " text-white";
                  badge_icon := icon status;
                  badge_text := t (label status) |}
  | None =>
      Rejected (mkError "Cannot read properties of undefined (reading 'icon')")
  end.
End Orders.

(** ** The authentication context: [AuthProvider] *)

Module AuthContext.
Definition ADMIN_PHONE : string := "+919381179867".

Record State := {
  user : option User.t;
  loading : bool;
  userRole : option Role;
  needsRoleSelection : bool;
}.

Definition setUser (u : option User.t) : M (Client State) unit :=
  setState (λ s, {| user := u; loading := loading s; userRole := userRole s;
                    needsRoleSelection := needsRoleSelection s |}).
Definition setLoading (b : bool) : M (Client State) unit :=
  setState (λ s, {| user := user s; loading := b; userRole := userRole s;
                    needsRoleSelection := needsRoleSelection s |}).
Definition setUserRoleState (r : option Role) : M (Client State) unit :=
  setState (λ s, {| user := user s; loading := loading s; userRole := r;
                    needsRoleSelection := needsRoleSelection s |}).
Definition setNeedsRoleSelection (b : bool) : M (Client State) unit :=
  setState (λ s, {| user := user s; loading := loading s; userRole := userRole s;
                    needsRoleSelection := b |}).

(** The callback registered with [onAuthStateChanged]. *)
Definition onAuthStateChanged (firebaseUser : option User.t) : M (Client State) unit :=
  setUser firebaseUser;;
  match firebaseUser with
  | Some firebaseUser =>
      if decide (User.phoneNumber firebaseUser = Some ADMIN_PHONE) then
        setUserRoleState (Some admin);;
        setNeedsRoleSelection false;;
        supabase (ProfilesUpsert
          {| Profile.id := User.uid firebaseUser;
             Profile.phone := User.phoneNumber firebaseUser;
             Profile.role := Some admin |});;
        skip
      else
        r ← supabase (ProfilesRole (User.uid firebaseUser));
        match Supabase.data r with
        | Some (Some role) =>
            setUserRoleState (Some role);;
            setNeedsRoleSelection false
        | _ =>
            setNeedsRoleSelection true;;
            setUserRoleState None
        end
  | None =>
      setUserRoleState None;;
      setNeedsRoleSelection false
  end;;
  setLoading false.

Definition setUserRole (role : Role) : M (Client State) unit :=
  s ← gets page;
  match user s with
  | None => skip
  | Some user =>
      r ← supabase (ProfilesUpsert
             {| Profile.id := User.uid user;
                Profile.phone := User.phoneNumber user;
                Profile.role := Some role |});
      match Supabase.error r with
      | None =>
          setUserRoleState (Some role);;
          setNeedsRoleSelection false
      | Some _ => skip
      end
  end.

(** [auth] can be missing ([None]); otherwise [settled] is what
    [auth.signOut()] settles to. *)
Definition signOut (auth : option (Result unit)) : M (Client State) unit :=
match auth with
| Some settled => await settled
| None => skip
end;;
setUserRoleState None;;
setNeedsRoleSelection false.
End AuthContext.

(** ** The phone sign-in page: [PhoneAuth] *)

(** [a || b] on strings: the empty string is falsy. *)
Definition str_or (a b : string) : string := if truthy a then a else b.

Module PhoneAuth.
Definition DEV_ADMIN_PHONE : string := "9381179867".
Definition DEV_ADMIN_OTP : string := "567890".

(** ['phone' | 'otp' | 'role'] *)
Inductive Step := phone_step | otp_step | role_step.

(** The [useState] cells and the verifier ref of the page.  Of the
    confirmation result and of the verifier only their presence is read. *)
Record State := {
  phone : string;
  otp : string;
  step : Step;
  isLoading : bool;
  confirmationResult : bool;
  isDevMode : bool;
  recaptchaVerifier : bool;
}.

(** The calls the page makes to the identity provider. *)
Inductive ProviderCall :=
| SignInWithPhoneNumber (formattedPhone : string)
| Confirm (code : string)
| RecaptchaClear
| RecaptchaNew.

(** The identity provider as the page sees it: whether [auth] is configured,
    whether the container of the verifier is mounted, what the coming
    awaited calls settle to ([Some e]: the call rejects with [e]), and the
    calls made so far. *)
Record Provider := {
  auth : bool;
  recaptcha_div : bool;
  settles : list (option JsError);
  calls : list ProviderCall;
}.

(** What the page has in scope: its own state, the authentication context
    it gets from [useAuth()], and the identity provider. *)
Record Scope := {
  ui : State;
  context : AuthContext.State;
  provider : Provider;
}.

Definition setUi (f : State → State) : M (Client Scope) unit :=
setState (λ sc, {| ui := f (ui sc); context := context sc; provider := provider sc |}).

Definition setOtp (x : string) : M (Client Scope) unit :=
setUi (λ s, {| phone := phone s; otp := x; step := step s; isLoading := isLoading s;
               confirmationResult := confirmationResult s; isDevMode := isDevMode s;
               recaptchaVerifier := recaptchaVerifier s |}).
Definition setStep (x : Step) : M (Client Scope) unit :=
setUi (λ s, {| phone := phone s; otp := otp s; step := x; isLoading := isLoading s;
               confirmationResult := confirmationResult s; isDevMode := isDevMode s;
               recaptchaVerifier := recaptchaVerifier s |}).
Definition setIsLoading (x : bool) : M (Client Scope) unit :=
setUi (λ s, {| phone := phone s; otp := otp s; step := step s; isLoading := x;
               confirmationResult := confirmationResult s; isDevMode := isDevMode s;
               recaptchaVerifier := recaptchaVerifier s |}).
Definition setConfirmationResult (x : bool) : M (Client Scope) unit :=
setUi (λ s, {| phone := phone s; otp := otp s; step := step s; isLoading := isLoading s;
               confirmationResult := x; isDevMode := isDevMode s;
               recaptchaVerifier := recaptchaVerifier s |}).
Definition setIsDevMode (x : bool) : M (Client Scope) unit :=
setUi (λ s, {| phone := phone s; otp := otp s; step := step s; isLoading := isLoading s;
               confirmationResult := confirmationResult s; isDevMode := x;
               recaptchaVerifier := recaptchaVerifier s |}).
Definition setRecaptchaVerifier (x : bool) : M (Client Scope) unit :=
setUi (λ s, {| phone := phone s; otp := otp s; step := step s; isLoading := isLoading s;
               confirmationResult := confirmationResult s; isDevMode := isDevMode s;
               recaptchaVerifier := x |}).

(** A synchronous call on the verifier: it is only recorded. *)
Definition recaptcha (c : ProviderCall) : M (Client Scope) unit :=
setState (λ sc, {| ui := ui sc; context := context sc;
                   provider := {| auth := auth (provider sc);
                                  recaptcha_div := recaptcha_div (provider sc);
                                  settles := settles (provider sc);
                                  calls := calls (provider sc) ++ [c] |} |}).

(** An awaited call of the provider: it is recorded, then resolves or
    rejects as the provider decides. *)
Definition awaited (c : ProviderCall) : M (Client Scope) unit :=
λ w,
  let sc := page w in
  let pr := provider sc in
  let after rest :=
    {| page := {| ui := ui sc; context := context sc;
                  provider := {| auth := auth pr; recaptcha_div := recaptcha_div pr;
                                 settles := rest; calls := calls pr ++ [c] |} |};
       env := env w |} in
  match settles pr with
  | Some e :: rest => (Rejected e, after rest)
  | resolved => (Resolved tt, after (tail resolved))
  end.

(** A function of the authentication context, called from this page. *)
Definition useAuth {A} (m : M (Client AuthContext.State) A) : M (Client Scope) A :=
λ w,
  let '(r, w') := m {| page := context (page w); env := env w |} in
  (r, {| page := {| ui := ui (page w); context := page w';
                    provider := provider (page w) |};
         env := env w' |}).

Definition redirectBasedOnRole (role : string) : M (Client Scope) unit :=
if decide (role = "admin") then navigate "/admin"
else if decide (role = "farmer") then navigate "/farmer-dashboard"
else navigate "/marketplace".

Definition sendOTP : M (Client Scope) unit :=
s ← gets (λ w, ui (page w));
if negb (truthy (phone s)) || (String.length (phone s) <? 10)%nat then
  toast {| title := t "invalidPhone"; description := None;
           variant := Some "destructive" |}
else if decide (phone s = DEV_ADMIN_PHONE) then
  setIsDevMode true;;
  setStep otp_step;;
  toast {| title := verbatim "DEV MODE: Enter 567890 to login as admin";
           description := None; variant := None |}
else
  setIsLoading true;;
  try_finally
    (try_catch
       (let formattedPhone :=
          if String.prefix "+" (phone s) then phone s else "+91" +:+ phone s in
        sc ← gets page;
        if negb (recaptchaVerifier (ui sc)) || negb (auth (provider sc)) then
          throw (mkError "Firebase not initialized")
        else
          awaited (SignInWithPhoneNumber formattedPhone);;
          setConfirmationResult true;;
          setStep otp_step;;
          toast {| title := t "otpSent"; description := None; variant := None |})
       (λ error,
          console_error "Send OTP error:" error;;
          toast {| title := t "error";
                   description :=
                     Some (verbatim (str_or (message error) "Failed to send OTP"));
                   variant := Some "destructive" |};;
          sc ← gets page;
          if recaptchaVerifier (ui sc) && auth (provider sc)
             && recaptcha_div (provider sc) then
            recaptcha RecaptchaClear;;
            recaptcha RecaptchaNew;;
            setRecaptchaVerifier true
          else skip))
    (setIsLoading false).

Definition verifyOTP : M (Client Scope) unit :=
s ← gets (λ w, ui (page w));
if negb (truthy (otp s)) || negb (String.length (otp s) =? 6)%nat then
  toast {| title := t "invalidOtp"; description := None;
           variant := Some "destructive" |}
else if isDevMode s && bool_decide (phone s = DEV_ADMIN_PHONE)
        && bool_decide (otp s = DEV_ADMIN_OTP) then
  toast {| title := verbatim "DEV MODE";
           description :=
             Some (verbatim "Admin bypass - please use real Firebase auth in production");
           variant := Some "destructive" |}
else
  setIsLoading true;;
  try_finally
    (try_catch
       (if negb (confirmationResult s) then
          throw (mkError "No confirmation result")
        else
          awaited (Confirm (otp s));;
          toast {| title := t "loginSuccess"; description := None; variant := None |})
       (λ error,
          console_error "Verify OTP error:" error;;
          toast {| title := t "error";
                   description := Some (verbatim (str_or (message error) "Invalid OTP"));
                   variant := Some "destructive" |}))
    (setIsLoading false).

(** The string a role is at run time. *)
Definition role_string (r : Role) : string :=
match r with
| farmer => "farmer"
| buyer => "buyer"
| admin => "admin"
end.

Definition handleRoleSelect (selectedRole : Role) : M (Client Scope) unit :=
setIsLoading true;;
try_finally
  (try_catch
     (useAuth (AuthContext.setUserRole selectedRole);;
      toast {| title := t "loginSuccess"; description := None; variant := None |};;
      redirectBasedOnRole (role_string selectedRole))
     (λ error,
        toast {| title := t "error"; description := Some (verbatim (message error));
                 variant := Some "destructive" |}))
  (setIsLoading false).
End PhoneAuth.

(** ** A concrete market, used to run the programs *)

Module Sample.
Definition asha : User.t :=
  {| User.uid := "uid-asha"; User.phoneNumber := Some "+911234567890";
     User.email := Some "asha@example.org"; User.id := None |}.

Definition root : User.t :=
  {| User.uid := "uid-root"; User.phoneNumber := Some "+919381179867";
     User.email := None; User.id := None |}.

Definition rice : Crop.t :=
  {| Crop.id := "crop-rice"; Crop.name := "Rice"; Crop.description := "Sona masoori";
     Crop.price_per_kg := 40; Crop.quantity_kg := 10; Crop.image_url := None;
     Crop.location := Some "Guntur"; Crop.farmer_id := "uid-ravi";
     Crop.available := true |}.

Definition hello : Message.t :=
  {| Message.id := "message-1"; Message.chat_id := "chat-0";
     Message.sender_id := "uid-asha"; Message.content := "Is it fresh?";
     Message.created_at := 7; Message.read := false |}.

Definition reply1 : Message.t :=
  {| Message.id := "message-2"; Message.chat_id := "chat-0";
     Message.sender_id := "uid-ravi"; Message.content := "Harvested today";
     Message.created_at := 5; Message.read := false |}.

Definition other : Message.t :=
  {| Message.id := "message-3"; Message.chat_id := "chat-9";
     Message.sender_id := "uid-ravi"; Message.content := "Hello";
     Message.created_at := 6; Message.read := true |}.

Definition market : Supabase.Store :=
  {| Supabase.crops := [rice]; Supabase.orders := []; Supabase.chats := [];
     Supabase.messages := [hello; other; reply1];
     Supabase.profiles := [{| Profile.id := "uid-asha"; Profile.phone := None;
                              Profile.role := Some buyer |}];
     Supabase.tick := 100 |}.

Definition deployed (g : CreateRazorpayOrder.Gateway) : CreateRazorpayOrder.World :=
  {| CreateRazorpayOrder.Deno_env :=
       {[ "Razorpay_apikey" := "rzp_test_key"; "Razorpay_key_secret" := "s3cret" ]};
     CreateRazorpayOrder.now := 1700000000000;
     CreateRazorpayOrder.gateway := g;
     CreateRazorpayOrder.done := [] |}.

Definition outside (fs : list (option JsError)) : Env :=
  {| store := market; edge := deployed (CreateRazorpayOrder.Created "order_R1");
     faults := fs; log := [] |}.

Definition crop_page (q : number) (addr : string) (fs : list (option JsError))
  : Client CropDetail.State :=
  {| page := {| CropDetail.crop := Some rice; CropDetail.quantity := q;
                CropDetail.address := addr; CropDetail.loading := false;
                CropDetail.paying := false |};
     env := outside fs |}.

Definition chat_page (fs : list (option JsError)) : Client Chat.State :=
  {| page := {| Chat.chats := []; Chat.activeChat := None; Chat.messages := [];
                Chat.newMessage := ""; Chat.loading := true |};
     env := outside fs |}.

Definition orders_page (fs : list (option JsError)) : Client Orders.State :=
  {| page := {| Orders.orders := []; Orders.loading := true |};
     env := outside fs |}.

Definition auth (fs : list (option JsError)) : Client AuthContext.State :=
  {| page := {| AuthContext.user := None; AuthContext.loading := true;
                AuthContext.userRole := None;
                AuthContext.needsRoleSelection := false |};
     env := outside fs |}.

Definition paid_response : Razorpay.Response :=
  {| Razorpay.razorpay_order_id := Some "order_R1";
     Razorpay.razorpay_payment_id := Some "pay_P1" |}.

Definition timeout : JsError :=
  {| message := "Failed to fetch"; instanceof_Error := true |}.

Definition purchase : Razorpay.Closure :=
  {| Razorpay.user := asha; Razorpay.crop := Some rice; Razorpay.quantity := 3;
     Razorpay.totalPrice := 120; Razorpay.address := "12 Main Rd" |}.

Definition post (a : number) : CreateRazorpayOrder.HttpRequest :=
  {| CreateRazorpayOrder.method := "POST";
     CreateRazorpayOrder.json :=
       Resolved {| CreateRazorpayOrder.amount := a;
                   CreateRazorpayOrder.cropId := Some "crop-rice";
                   CreateRazorpayOrder.quantity := 3 |} |}.

Definition signed_in : AuthContext.State :=
  {| AuthContext.user := Some asha; AuthContext.loading := false;
     AuthContext.userRole := None; AuthContext.needsRoleSelection := true |}.

Definition phone_page (number code : string) : PhoneAuth.Scope :=
  {| PhoneAuth.ui :=
       {| PhoneAuth.phone := number; PhoneAuth.otp := code;
          PhoneAuth.step := PhoneAuth.phone_step; PhoneAuth.isLoading := false;
          PhoneAuth.confirmationResult := false; PhoneAuth.isDevMode := false;
          PhoneAuth.recaptchaVerifier := true |};
     PhoneAuth.context := signed_in;
     PhoneAuth.provider :=
       {| PhoneAuth.auth := true; PhoneAuth.recaptcha_div := true;
          PhoneAuth.settles := []; PhoneAuth.calls := [] |} |}.

Definition typing (chat text : string) : Chat.State :=
  {| Chat.chats := []; Chat.activeChat := Some chat; Chat.messages := [];
     Chat.newMessage := text; Chat.loading := false |}.

(** The rice once other buyers have taken 5 of its 10 kg. *)
Definition rice_left : Crop.t :=
  {| Crop.id := "crop-rice"; Crop.name := "Rice"; Crop.description := "Sona masoori";
     Crop.price_per_kg := 40; Crop.quantity_kg := 5; Crop.image_url := None;
     Crop.location := Some "Guntur"; Crop.farmer_id := "uid-ravi";
     Crop.available := true |}.

(** Asha's talk with the farmer about the rice. *)
Definition rice_chat : ChatRoom.t :=
  {| ChatRoom.id := "chat-0"; ChatRoom.farmer_id := "uid-ravi";
     ChatRoom.buyer_id := "uid-asha"; ChatRoom.crop_id := Some "crop-rice";
     ChatRoom.updated_at := 7 |}.

(** A talk between two other users. *)
Definition others_chat : ChatRoom.t :=
  {| ChatRoom.id := "chat-9"; ChatRoom.farmer_id := "uid-ravi";
     ChatRoom.buyer_id := "uid-kiran"; ChatRoom.crop_id := Some "crop-rice";
     ChatRoom.updated_at := 9 |}.

(** A talk in which Asha is the seller. *)
Definition millet_chat : ChatRoom.t :=
  {| ChatRoom.id := "chat-4"; ChatRoom.farmer_id := "uid-asha";
     ChatRoom.buyer_id := "uid-kiran"; ChatRoom.crop_id := Some "crop-millet";
     ChatRoom.updated_at := 12 |}.

(** An order of another buyer, and an order Asha placed, as the checkout
    handler recorded it. *)
Definition kiran_order : Order.t :=
  {| Order.id := "order-7"; Order.buyer_id := Some "uid-kiran";
     Order.farmer_id := Some "uid-ravi"; Order.crop_id := Some "crop-rice";
     Order.quantity_kg := 5; Order.total_price := 200; Order.status := delivered;
     Order.created_at := 90; Order.delivery_address := Some "4 Tank St";
     Order.razorpay_order_id := Some "order_R0";
     Order.razorpay_payment_id := Some "pay_P0" |}.

Definition asha_order : Order.t :=
  {| Order.id := "order-8"; Order.buyer_id := None;
     Order.farmer_id := Some "uid-ravi"; Order.crop_id := Some "crop-rice";
     Order.quantity_kg := 1; Order.total_price := 40; Order.status := paid;
     Order.created_at := 95; Order.delivery_address := Some "12 Main Rd";
     Order.razorpay_order_id := Some "order_R9";
     Order.razorpay_payment_id := Some "pay_P9" |}.

(** The market some time later: 5 kg of rice are left, and there are chats
    and orders. *)
Definition busy_market : Supabase.Store :=
  {| Supabase.crops := [rice_left];
     Supabase.orders := [kiran_order; asha_order];
     Supabase.chats := [rice_chat; others_chat; millet_chat];
     Supabase.messages := [hello; other; reply1];
     Supabase.profiles := [{| Profile.id := "uid-asha"; Profile.phone := None;
                              Profile.role := Some buyer |}];
     Supabase.tick := 105 |}.

Definition later (fs : list (option JsError)) : Env :=
  {| store := busy_market; edge := deployed (CreateRazorpayOrder.Created "order_R1");
     faults := fs; log := [] |}.

(** The crop page still showing the 10 kg it loaded, on the later market. *)
Definition stale_crop_page (fs : list (option JsError)) : Client CropDetail.State :=
  {| page := page (crop_page 3 "12 Main Rd" fs); env := later fs |}.

Definition later_chat_page (fs : list (option JsError)) : Client Chat.State :=
  {| page := page (chat_page fs); env := later fs |}.

Definition later_orders_page (fs : list (option JsError)) : Client Orders.State :=
  {| page := page (orders_page fs); env := later fs |}.
End Sample.

(** ** Vocabulary of the properties *)

Global Instance JsError_eq_dec : EqDecision JsError.
Proof. solve_decision. Defined.

(** The next [n] calls to the backend are served rather than failed. *)
Definition served (n : nat) (fs : list (option JsError)) : Prop :=
  Forall (λ f, f = None) (take n fs).

Global Instance served_dec n fs : Decision (served n fs).
Proof. unfold served. apply _. Defined.

(** A mounted page in its surroundings. *)
Definition world {S} (pg : S) (st : Supabase.Store) (ed : CreateRazorpayOrder.World)
    (fs : list (option JsError)) (lg : list Effect) : Client S :=
  {| page := pg; env := {| store := st; edge := ed; faults := fs; log := lg |} |}.

(** The toast every [catch] block of the pages builds from the error. *)
Definition error_shown (e : JsError) : Effect :=
  Toasted {| title := t "error"; description := Some (verbatim (message e));
             variant := Some "destructive" |}.

(** No toast among the effects. *)
Definition toastless (l : list Effect) : Prop :=
  Forall (λ e, match e with Toasted _ => False | _ => True end) l.

(** Neither a call to the backend nor the checkout widget among the effects. *)
Definition offline (l : list Effect) : Prop :=
  Forall (λ e, match e with
               | Requested _ | RazorpayOpened _ => False
               | _ => True
               end) l.

(** The edge function has both credentials in its environment. *)
Definition configured (ed : CreateRazorpayOrder.World) : Prop :=
  CreateRazorpayOrder.missing
    (CreateRazorpayOrder.Deno_env ed !! "Razorpay_apikey") = false
  ∧ CreateRazorpayOrder.missing
      (CreateRazorpayOrder.Deno_env ed !! "Razorpay_key_secret") = false.

Section EdgeFunction.
Import CreateRazorpayOrder.

(** What can go wrong while a request is handled. *)
Definition failure (req : HttpRequest) (w : World) : Prop :=
  (∃ e, json req = Rejected e)
  ∨ missing (Deno_env w !! "Razorpay_apikey") = true
  ∨ missing (Deno_env w !! "Razorpay_key_secret") = true
  ∨ (∃ e, gateway w = Unreachable e)
  ∨ (∃ errorText, gateway w = Refused errorText)
  ∨ (∃ e, gateway w = Garbled e).
End EdgeFunction.

(** A user object as the identity provider hands it out: it has a [uid] and
    no [id] property. *)
Definition from_provider (u : User.t) : Prop := User.id u = None.

(** The role and the role-selection flag agree with the signed-in user: role
    selection is only pending for a signed-in user without a role, and
    nobody signed out has a role. *)
Definition coherent (s : AuthContext.State) : Prop :=
  (AuthContext.needsRoleSelection s = true →
   AuthContext.userRole s = None ∧ AuthContext.user s ≠ None)
  ∧ (AuthContext.user s = None → AuthContext.userRole s = None).

(** The chat page with the draft emptied. *)
Definition cleared (pg : Chat.State) : Chat.State :=
  {| Chat.chats := Chat.chats pg; Chat.activeChat := Chat.activeChat pg;
     Chat.messages := Chat.messages pg; Chat.newMessage := "";
     Chat.loading := Chat.loading pg |}.

(** The crop page with no payment in progress. *)
Definition idle (pg : CropDetail.State) : CropDetail.State :=
  {| CropDetail.crop := CropDetail.crop pg; CropDetail.quantity := CropDetail.quantity pg;
     CropDetail.address := CropDetail.address pg; CropDetail.loading := CropDetail.loading pg;
     CropDetail.paying := false |}.

(** The body [handlePayment] sends to the order-creation function. *)
Definition invoke_body (pg : CropDetail.State) : CreateRazorpayOrder.Body :=
  {| CreateRazorpayOrder.amount := CropDetail.totalPrice pg;
     CreateRazorpayOrder.cropId := Crop.id <$> CropDetail.crop pg;
     CreateRazorpayOrder.quantity := CropDetail.quantity pg |}.

(** The submissions to the payment API among the effects of the edge
    function. *)
Definition submissions (l : list CreateRazorpayOrder.Effect)
  : list CreateRazorpayOrder.Fetch :=
  omap (λ e, match e with
             | CreateRazorpayOrder.Fetched f => Some f
             | CreateRazorpayOrder.ConsoleError _ _ => None
             end) l.

(** * Properties *)

(** Unfolding of the monad and of the browser primitives. *)
Ltac run_js :=
  cbv beta iota zeta delta
    [mbind M_bind mret M_ret throw try_catch try_finally gets modify skip await
     setState emit toast navigate console_error razorpay_open
     CreateRazorpayOrder.emit CreateRazorpayOrder.console_error
     CreateRazorpayOrder.Deno_env_get CreateRazorpayOrder.Date_now
     CreateRazorpayOrder.fetch];
  cbn [page env store edge faults log].

(** ** The programs on the sample market *)

Example trim_address : trim "  12 Main Rd " = "12 Main Rd".
Proof. reflexivity. Qed.

Example trim_blank : trim "   " = "".
Proof. reflexivity. Qed.

Example num_or_falsy : num_or (Some 0) 0 = 0 ∧ num_or None 0 = 0 ∧ num_or (Some 10) 0 = 10.
Proof. by vm_compute. Qed.

(** Asha buys 3 kg of the 10 kg of rice: the widget is opened on the order
    the payment API created, for 12000 paise. *)
Example sample_checkout_opened :
  ∃ options,
    log (env (CropDetail.handlePayment (Some Sample.asha)
                (Sample.crop_page 3 "12 Main Rd" [])).2)
    = [Requested (FunctionsInvoke "create-razorpay-order"
                    {| CreateRazorpayOrder.amount := 120;
                       CreateRazorpayOrder.cropId := Some "crop-rice";
                       CreateRazorpayOrder.quantity := 3 |});
       RazorpayOpened options]
    ∧ Razorpay.order_id options = "order_R1"
    ∧ Razorpay.amount options = 12000
    ∧ Razorpay.handler options = Sample.purchase.
Proof. eexists. by vm_compute. Qed.

(** After the payment the store holds one paid order and 7 kg of rice. *)
Example sample_purchase_recorded :
  let st := store (env (CropDetail.handler Sample.purchase Sample.paid_response
                          (Sample.crop_page 3 "12 Main Rd" [])).2) in
  (λ o, (Order.status o, Order.quantity_kg o, Order.razorpay_payment_id o))
    <$> Supabase.orders st = [(paid, 3, Some "pay_P1")]
  ∧ (λ c, (Crop.quantity_kg c, Crop.available c)) <$> Supabase.crops st = [(7, true)].
Proof. by vm_compute. Qed.

(** The buyer column of the order is whatever the user object has as [id]:
    nothing, although Asha is signed in with a [uid]. *)
Example sample_buyer_column :
  Order.buyer_id
    <$> Supabase.orders (store (env (CropDetail.handler Sample.purchase
                                       Sample.paid_response
                                       (Sample.crop_page 3 "12 Main Rd" [])).2))
  = [User.id Sample.asha]
  ∧ User.id Sample.asha = None
  ∧ User.uid Sample.asha = "uid-asha".
Proof. by vm_compute. Qed.

(** The two messages of chat-0 come back oldest first. *)
Example sample_messages :
  Chat.messages (page (Chat.fetchMessages "chat-0" (Sample.chat_page [])).2)
  = [Sample.reply1; Sample.hello].
Proof. by vm_compute. Qed.

(** The preflight request is answered before anything else happens. *)
Example sample_preflight :
  CreateRazorpayOrder.handler
    {| CreateRazorpayOrder.method := "OPTIONS";
       CreateRazorpayOrder.json := Rejected (mkError "Unexpected end of JSON input") |}
    (Sample.deployed (CreateRazorpayOrder.Created "order_R1"))
  = (Resolved {| CreateRazorpayOrder.status := 200;
                 CreateRazorpayOrder.body := CreateRazorpayOrder.NoBody |},
     Sample.deployed (CreateRazorpayOrder.Created "order_R1")).
Proof. reflexivity. Qed.

(** ** The edge function *)

Section EdgeFunctionFacts.
Import CreateRazorpayOrder.

Lemma handler_options req w :
  method req = "OPTIONS" →
  handler req w = (Resolved {| status := 200; body := NoBody |}, w).
Proof. intros H. unfold handler. rewrite decide_True by done. reflexivity. Qed.

Ltac edge_cases :=
  repeat match goal with
    | |- context [?m !! ?k] =>
        let H := fresh "Hget" in destruct (m !! k) as [[|??]|] eqn:H
    | g : Gateway |- _ => destruct g
    | r : Result Body |- _ => destruct r
    end.

(** C10. Every request but the CORS preflight is answered, and this is what
    the function does on the way.  When the body can be read and both
    credentials are configured it submits exactly one order to the payment
    API, a POST to [https://api.razorpay.com/v1/orders] whose amount is the
    request's amount times 100 and whose currency is INR; when the payment
    API creates the order the answer is 200 with that order.  Every failure
    is answered with status 500 and a JSON body holding the error's
    message: the message of what [req.json()] rejected with, or of what
    [fetch] or [response.json()] threw ([Unknown error] when that is not an
    [Error]), [Razorpay credentials not configured] when a credential is
    missing, [Failed to create Razorpay order] when the payment API
    refuses.  Nothing is submitted when the body cannot be read or a
    credential is missing, and the message of a 500 answer is also the last
    thing written to the console. *)
Theorem create_order_paise_and_500 (req : HttpRequest) (w : World) :
  method req ≠ "OPTIONS" →
  ∃ resp w' did,
    handler req w = (Resolved resp, w')
    ∧ done w' = done w ++ did
    ∧ (∀ b, json req = Resolved b → configured w →
         ∃ f, submissions did = [f]
              ∧ url f = "https://api.razorpay.com/v1/orders"
              ∧ fetch_method f = "POST"
              ∧ order_amount (fetch_body f) = amount b * 100
              ∧ order_currency (fetch_body f) = "INR")
    ∧ (∀ b oid, json req = Resolved b → configured w → gateway w = Created oid →
         resp = {| status := 200;
                   body := OrderJson
                             {| id := oid; created_amount := amount b * 100;
                                created_currency := "INR";
                                created_receipt := "order_" +:+ pretty (now w) |} |})
    ∧ (∀ e, json req = Rejected e →
         submissions did = []
         ∧ resp = {| status := 500;
                     body := ErrorJson (if instanceof_Error e then message e
                                        else "Unknown error") |})
    ∧ (∀ b, json req = Resolved b → ¬ configured w →
         submissions did = []
         ∧ resp = {| status := 500;
                     body := ErrorJson "Razorpay credentials not configured" |})
    ∧ (∀ b e, json req = Resolved b → configured w → gateway w = Unreachable e →
         resp = {| status := 500;
                   body := ErrorJson (if instanceof_Error e then message e
                                      else "Unknown error") |})
    ∧ (∀ b errorText, json req = Resolved b → configured w →
         gateway w = Refused errorText →
         resp = {| status := 500; body := ErrorJson "Failed to create Razorpay order" |}
         ∧ ConsoleError "Razorpay error:" errorText ∈ did)
    ∧ (∀ b e, json req = Resolved b → configured w → gateway w = Garbled e →
         resp = {| status := 500;
                   body := ErrorJson (if instanceof_Error e then message e
                                      else "Unknown error") |})
    ∧ (∀ msg, resp = {| status := 500; body := ErrorJson msg |} →
         last did = Some (ConsoleError "Error:" msg)).
Proof.
  intros Hm. unfold handler, configured. rewrite decide_False by done.
  destruct w as [denv t0 gw dn], req as [m r]. cbn [json method Deno_env gateway now done].
  run_js. cbn [json method Deno_env gateway now done].
  edge_cases; cbn; rewrite <- ?app_assoc; cbn [app];
    do 3 eexists; (split; [reflexivity|]); (split; [cbn [done]; reflexivity|]);
    repeat apply conj; intros; try congruence.
  all: try match goal with
    | H : _ ∧ _ |- _ => destruct H as [? ?]; cbn in *; congruence
    end.
  all: try match goal with
    | H : ¬ _ |- _ => exfalso; apply H; by split
    end.
  all: simplify_eq; try (eexists; repeat apply conj; reflexivity).
  all: repeat apply conj; first [reflexivity | by repeat constructor].
Qed.
End EdgeFunctionFacts.

(** ** Calls to the backend *)

Section Calls.
Context {S : Type}.
Implicit Types (pg : S) (st : Supabase.Store) (ed : CreateRazorpayOrder.World).

Lemma served_S n fs : served (Datatypes.S n) fs → served 1 fs ∧ served n (tail fs).
Proof.
  unfold served. destruct fs as [|f fs]; cbn.
  - rewrite take_nil. by split.
  - intros H. apply Forall_cons in H as [-> H]. split; [|done].
    rewrite take_0. by repeat constructor.
Qed.

Lemma served_1 fs : served 1 fs → fs = [] ∨ ∃ rest, fs = None :: rest.
Proof.
  unfold served. destruct fs as [|f fs]; cbn; [by left|].
  intros H. apply Forall_cons in H as [-> _]. right. by eexists.
Qed.

(** A served call: the backend's answer, and one fault entry consumed. *)
Lemma supabase_served (r : Request) pg st ed fs lg :
  served 1 fs →
  supabase r {| page := pg;
                env := {| store := st; edge := ed; faults := fs; log := lg |} |}
  = (Resolved (serve r st ed).1.1,
     {| page := pg;
        env := {| store := (serve r st ed).1.2; edge := (serve r st ed).2;
                  faults := tail fs; log := lg ++ [Requested r] |} |}).
Proof.
  intros [->|[rest ->]]%served_1; unfold supabase; cbn;
    by destruct (serve r st ed) as [[??]?].
Qed.

(** A failed call: the error comes back as [error], nothing else moves. *)
Lemma supabase_faulted (r : Request) pg st ed e rest lg :
  supabase r {| page := pg;
                env := {| store := st; edge := ed; faults := Some e :: rest;
                          log := lg |} |}
  = (Resolved (Supabase.failed e),
     {| page := pg;
        env := {| store := st; edge := ed; faults := rest;
                  log := lg ++ [Requested r] |} |}).
Proof. reflexivity. Qed.
End Calls.

Lemma num_or_0 (v : number) : num_or (Some v) 0 = v.
Proof. unfold num_or. by case_decide. Qed.

(** ** The orders page *)

(** C8. An order's status is one of exactly pending, paid, delivered and
    cancelled; [statusConfig] has an entry for each of them, whose label is
    the status itself, and for nothing else; so the status badge of every
    order renders, without reading a property of an undefined entry. *)
Theorem statusConfig_total :
  (∀ s : OrderStatus, s ∈ [pending; paid; delivered; cancelled])
  ∧ (∀ s : OrderStatus,
       ∃ entry, Orders.statusConfig !! status_string s = Some entry
                ∧ Orders.label entry = status_string s)
  ∧ (∀ key entry, Orders.statusConfig !! key = Some entry →
       ∃ s : OrderStatus, key = status_string s)
  ∧ (∀ order : Order.t, ∃ badge, Orders.render_status order = Resolved badge).
Proof.
  split; [|split; [|split]].
  - intros []; set_solver.
  - intros []; eexists; split; reflexivity.
  - intros key entry. unfold Orders.statusConfig.
    rewrite !lookup_insert_Some, lookup_singleton_Some.
    intros [[<- _]|[_ [[<- _]|[_ [[<- _]|[_ [<- _]]]]]]];
      [by exists pending|by exists paid|by exists delivered|by exists cancelled].
  - intros order. unfold Orders.render_status.
    destruct (Order.status order); eexists; reflexivity.
Qed.

(** ** The crop page *)

Section CropDetailFacts.
Import CropDetail.

Lemma invoke_edge_created body ed oid :
  configured ed →
  CreateRazorpayOrder.gateway ed = CreateRazorpayOrder.Created oid →
  ∃ order ed',
    @invoke_edge "create-razorpay-order" body ed = (Supabase.ok order, ed')
    ∧ CreateRazorpayOrder.id order = oid
    ∧ CreateRazorpayOrder.created_amount order = CreateRazorpayOrder.amount body * 100.
Proof.
  intros [Hk Hs] Hg. destruct ed as [denv t0 gw dn]. cbn in Hk, Hs, Hg. subst gw.
  unfold invoke_edge, CreateRazorpayOrder.handler.
  rewrite decide_True by done. rewrite decide_False by done.
  run_js. cbn [CreateRazorpayOrder.json CreateRazorpayOrder.Deno_env].
  rewrite Hk, Hs. cbn. by do 2 eexists.
Qed.

Lemma truthy_false s : truthy s = false ↔ s = "".
Proof. by destruct s. Qed.

Lemma truthy_true s : s ≠ "" → truthy s = true.
Proof. by destruct s. Qed.

(** C9. When nobody is signed in, or the delivery address is blank once
    trimmed, or the requested quantity exceeds the crop's stock,
    [handlePayment] returns after showing a toast: the page state, the
    store, the edge function and the pending network replies are all as
    before, and what was done contains no call to the backend and no
    opening of the checkout widget. *)
Theorem handlePayment_guards (user : option User.t) (w : Client State) :
  user = None
  ∨ trim (address (page w)) = ""
  ∨ quantity (page w) > num_or (Crop.quantity_kg <$> crop (page w)) 0 →
  ∃ shown shown_toast,
    handlePayment user w
    = (Resolved tt,
       {| page := page w;
          env := {| store := store (env w); edge := edge (env w);
                    faults := faults (env w);
                    log := log (env w) ++ shown |} |})
    ∧ offline shown
    ∧ Toasted shown_toast ∈ shown.
Proof.
  destruct w as [pg [st ed fs lg]]. cbn [page env store edge faults log].
  intros Hguard. unfold handlePayment. run_js. cbn [page env store edge faults log].
  destruct user as [u|].
  - destruct (truthy (trim (address pg))) eqn:Haddr; cbn [negb].
    + destruct Hguard as [?|[Hblank|Hq]]; [done| |].
      { apply truthy_false in Hblank. congruence. }
      rewrite decide_True by done.
      do 2 eexists. split; [reflexivity|]. split; [|by left].
      by repeat constructor.
    + do 2 eexists. split; [reflexivity|]. split; [|by left].
      by repeat constructor.
  - do 2 eexists. split; [rewrite <- app_assoc; reflexivity|]. split; [|by left].
    by repeat constructor.
Qed.

(** C2. After the payment has succeeded, a failure of the order insert makes
    the handler reject with that error after the single insert attempt:
    nothing is shown, nothing is retried, the store holds no order and the
    stock is as before.  A failure of the stock update after a served insert
    goes unnoticed: the handler still shows the success toast and navigates
    to the orders, the paid order stays in the store, the stock is as
    before, and neither call is retried or undone. *)
Theorem handler_no_compensation
    (cl : Razorpay.Closure) (response : Razorpay.Response)
    (pg : State) st ed (e : JsError) rest lg :
  let record :=
    {| Order.ins_buyer_id := User.id (Razorpay.user cl);
       Order.ins_farmer_id := Crop.farmer_id <$> Razorpay.crop cl;
       Order.ins_crop_id := Crop.id <$> Razorpay.crop cl;
       Order.ins_quantity_kg := Razorpay.quantity cl;
       Order.ins_total_price := Razorpay.totalPrice cl;
       Order.ins_status := paid;
       Order.ins_delivery_address := Razorpay.address cl;
       Order.ins_razorpay_order_id := Razorpay.razorpay_order_id response;
       Order.ins_razorpay_payment_id := Razorpay.razorpay_payment_id response |} in
  let patch :=
    {| Crop.patch_quantity_kg :=
         num_or (Crop.quantity_kg <$> Razorpay.crop cl) 0 - Razorpay.quantity cl;
       Crop.patch_available :=
         bool_decide (num_or (Crop.quantity_kg <$> Razorpay.crop cl) 0
                      - Razorpay.quantity cl > 0) |} in
  let recorded :=
    {| Supabase.crops := Supabase.crops st;
       Supabase.orders :=
         Supabase.orders st
         ++ [Order.row (Supabase.fresh_id "order" st) (Supabase.tick st) record];
       Supabase.chats := Supabase.chats st;
       Supabase.messages := Supabase.messages st;
       Supabase.profiles := Supabase.profiles st;
       Supabase.tick := Supabase.tick st + 1 |} in
  handler cl response
    {| page := pg;
       env := {| store := st; edge := ed; faults := Some e :: rest; log := lg |} |}
  = (Rejected e,
     {| page := pg;
        env := {| store := st; edge := ed; faults := rest;
                  log := lg ++ [Requested (OrdersInsert record)] |} |})
  ∧ handler cl response
      {| page := pg;
         env := {| store := st; edge := ed; faults := None :: Some e :: rest;
                   log := lg |} |}
    = (Resolved tt,
       {| page := pg;
          env := {| store := recorded; edge := ed; faults := rest;
                    log := lg ++ [Requested (OrdersInsert record);
                                  Requested (CropsUpdate patch
                                               (Crop.id <$> Razorpay.crop cl));
                                  Toasted {| title := t "paymentSuccess";
                                             description := Some (t "orderPlaced");
                                             variant := None |};
                                  Navigated "/orders"] |} |}).
Proof.
  intros record patch recorded. split.
  - reflexivity.
  - unfold handler. run_js. cbn. rewrite <- !app_assoc. reflexivity.
Qed.

(** The handler when both of its calls are served. *)
Lemma handler_served (cl : Razorpay.Closure) (response : Razorpay.Response)
    (pg : State) st ed fs lg :
  served 2 fs →
  let record :=
    {| Order.ins_buyer_id := User.id (Razorpay.user cl);
       Order.ins_farmer_id := Crop.farmer_id <$> Razorpay.crop cl;
       Order.ins_crop_id := Crop.id <$> Razorpay.crop cl;
       Order.ins_quantity_kg := Razorpay.quantity cl;
       Order.ins_total_price := Razorpay.totalPrice cl;
       Order.ins_status := paid;
       Order.ins_delivery_address := Razorpay.address cl;
       Order.ins_razorpay_order_id := Razorpay.razorpay_order_id response;
       Order.ins_razorpay_payment_id := Razorpay.razorpay_payment_id response |} in
  let patch :=
    {| Crop.patch_quantity_kg :=
         num_or (Crop.quantity_kg <$> Razorpay.crop cl) 0 - Razorpay.quantity cl;
       Crop.patch_available :=
         bool_decide (num_or (Crop.quantity_kg <$> Razorpay.crop cl) 0
                      - Razorpay.quantity cl > 0) |} in
  handler cl response
    {| page := pg;
       env := {| store := st; edge := ed; faults := fs; log := lg |} |}
  = (Resolved tt,
     {| page := pg;
        env := {| store :=
                    (Supabase.crops_update patch (Crop.id <$> Razorpay.crop cl)
                       (Supabase.orders_insert record st).2).2;
                  edge := ed; faults := tail (tail fs);
                  log := lg ++ [Requested (OrdersInsert record);
                                Requested (CropsUpdate patch
                                             (Crop.id <$> Razorpay.crop cl));
                                Toasted {| title := t "paymentSuccess";
                                           description := Some (t "orderPlaced");
                                           variant := None |};
                                Navigated "/orders"] |} |}).
Proof.
  intros [H1 [H2 _]%served_S]%served_S record patch.
  unfold handler. run_js.
  rewrite supabase_served by done. cbn.
  rewrite supabase_served by done. cbn.
  rewrite <- !app_assoc. reflexivity.
Qed.

(** C6, with the stock read where the code reads it.  The handler never
    reads the stock from the store: [s] is the stock of the crop as the page
    loaded it, captured when the widget was opened.  When the handler runs
    for a purchase of [q] kilograms of a crop loaded with stock [s], with
    [q ≤ s], and its calls are served, the stock update it sends carries
    quantity [s - q] and the flag [s - q > 0]; afterwards the store has the
    same crops, and every row of the purchased crop has
    [quantity_kg = s - q] and is available exactly when [s - q > 0],
    whatever stock the row held before. *)
Theorem stock_decrement (cl : Razorpay.Closure) (response : Razorpay.Response)
    (w : Client State) (c : Crop.t) :
  let s := Crop.quantity_kg c in
  let q := Razorpay.quantity cl in
  Razorpay.crop cl = Some c →
  q ≤ s →
  served 2 (faults (env w)) →
  ∃ w',
    handler cl response w = (Resolved tt, w')
    ∧ Requested (CropsUpdate {| Crop.patch_quantity_kg := s - q;
                                Crop.patch_available := bool_decide (s - q > 0) |}
                   (Some (Crop.id c))) ∈ log (env w')
    ∧ Crop.id <$> Supabase.crops (store (env w'))
      = Crop.id <$> Supabase.crops (store (env w))
    ∧ ∀ row, row ∈ Supabase.crops (store (env w')) →
             Crop.id row = Crop.id c →
             Crop.quantity_kg row = s - q
             ∧ (Crop.available row = true ↔ s - q > 0).
Proof.
  intros s q Hc Hq Hserved. destruct w as [pg [st ed fs lg]]. cbn in Hserved.
  eexists. split; [by apply handler_served|].
  rewrite Hc. cbn [fmap option_fmap option_map env log store].
  rewrite num_or_0. fold s q. split; [|split].
  - set_solver.
  - cbn. rewrite <- list_fmap_compose. apply list_fmap_ext.
    intros i r _. cbn. by case_decide.
  - cbn. intros row (r & -> & Hr)%list_elem_of_fmap Hid.
    case_decide as Hdec; cbn in *.
    + split; [done|]. by rewrite bool_decide_eq_true.
    + congruence.
Qed.

(** The stock the store holds is not what is decremented: the page loaded
    10 kg of rice, the store is down to 5 kg since, and a purchase of 3 kg
    leaves the row at 7 kg, not at 2. *)
Lemma stock_decrement_stale_view :
  let w := Sample.stale_crop_page [] in
  let w' := (handler Sample.purchase Sample.paid_response w).2 in
  (λ c, (Crop.id c, Crop.quantity_kg c)) <$> Supabase.crops (store (env w))
  = [("crop-rice", 5)]
  ∧ Razorpay.quantity Sample.purchase = 3
  ∧ (λ c, (Crop.id c, Crop.quantity_kg c)) <$> Supabase.crops (store (env w'))
    = [("crop-rice", 7)]
  ∧ 7 ≠ 5 - 3.
Proof. by vm_compute. Qed.

(** C1. A purchase that passes the guards runs in the three dependent steps
    of the claim: [handlePayment] calls the remote function
    create-razorpay-order and, with the order it returns, opens the
    checkout widget on that order's id; these are its only two actions, and
    the store is not written.  The order record and the stock update come
    from the success handler handed to the widget: it first inserts the
    order (status paid, with the farmer, crop, quantity, total price,
    delivery address and both payment references), then sends the stock
    update, then confirms and leaves for the orders page.  But the record
    does not carry the buyer.  The handler fills [buyer_id] from the [id]
    property of the user object, and the users of the identity provider
    have none (their identifier is [uid], which the chat page and the
    authentication context read): for every such user the inserted record
    and the stored order have no buyer. *)
Theorem payment_record_without_buyer (u : User.t) (w : Client State) (oid : string) :
  let s := page w in
  let body :=
    {| CreateRazorpayOrder.amount := totalPrice s;
       CreateRazorpayOrder.cropId := Crop.id <$> crop s;
       CreateRazorpayOrder.quantity := quantity s |} in
  from_provider u →
  trim (address s) ≠ "" →
  quantity s ≤ num_or (Crop.quantity_kg <$> crop s) 0 →
  served 1 (faults (env w)) →
  configured (edge (env w)) →
  CreateRazorpayOrder.gateway (edge (env w)) = CreateRazorpayOrder.Created oid →
  ∃ options w',
    handlePayment (Some u) w = (Resolved tt, w')
    ∧ log (env w')
      = log (env w) ++ [Requested (FunctionsInvoke "create-razorpay-order" body);
                        RazorpayOpened options]
    ∧ Razorpay.order_id options = oid
    ∧ store (env w') = store (env w)
    ∧ ∀ (response : Razorpay.Response) (w1 : Client State),
        served 2 (faults (env w1)) →
        let record :=
          {| Order.ins_buyer_id := None;
             Order.ins_farmer_id := Crop.farmer_id <$> crop s;
             Order.ins_crop_id := Crop.id <$> crop s;
             Order.ins_quantity_kg := quantity s;
             Order.ins_total_price := totalPrice s;
             Order.ins_status := paid;
             Order.ins_delivery_address := address s;
             Order.ins_razorpay_order_id := Razorpay.razorpay_order_id response;
             Order.ins_razorpay_payment_id := Razorpay.razorpay_payment_id response |} in
        let patch :=
          {| Crop.patch_quantity_kg :=
               num_or (Crop.quantity_kg <$> crop s) 0 - quantity s;
             Crop.patch_available :=
               bool_decide (num_or (Crop.quantity_kg <$> crop s) 0 - quantity s > 0) |} in
        ∃ w2 order,
          handler (Razorpay.handler options) response w1 = (Resolved tt, w2)
          ∧ log (env w2)
            = log (env w1)
              ++ [Requested (OrdersInsert record);
                  Requested (CropsUpdate patch (Crop.id <$> crop s));
                  Toasted {| title := t "paymentSuccess";
                             description := Some (t "orderPlaced");
                             variant := None |};
                  Navigated "/orders"]
          ∧ Supabase.orders (store (env w2)) = Supabase.orders (store (env w1)) ++ [order]
          ∧ order = Order.row (Supabase.fresh_id "order" (store (env w1)))
                      (Supabase.tick (store (env w1))) record
          ∧ Order.buyer_id order = None
          ∧ Order.status order = paid.
Proof.
  intros s body Hu Haddr Hq Hserved Hconf Hgw. red in Hu.
  destruct (invoke_edge_created body _ oid Hconf Hgw) as (order & ed' & Hinv & Hid & _).
  subst s body. destruct w as [pg [st ed fs lg]].
  cbn [page env store edge faults log] in *.
  unfold handlePayment, setPaying. run_js. cbn [page env].
  destruct (truthy (trim (address pg))) eqn:Htruthy;
    [|by apply truthy_false in Htruthy]. cbn [negb].
  rewrite decide_False by lia. run_js.
  rewrite supabase_served by done. cbn [serve fst snd].
  rewrite Hinv. cbn.
  do 2 eexists. split; [reflexivity|]. cbn [env log store].
  split; [by rewrite <- app_assoc|]. split; [done|]. split; [done|].
  intros response [pg1 [st1 ed1 fs1 lg1]] Hserved1. cbn in Hserved1.
  eexists. eexists (Order.row _ _ _).
  split; [by apply handler_served|]. cbn. by rewrite Hu.
Qed.
End CropDetailFacts.

(** ** The chat page *)

Global Instance ascending_total {A} (column : A → Z) : Total (Supabase.ascending column).
Proof. intros a b. unfold Supabase.ascending. lia. Qed.

Global Instance ascending_trans {A} (column : A → Z) : Transitive (Supabase.ascending column).
Proof. intros a b c. unfold Supabase.ascending. lia. Qed.

Section ChatFacts.
Import Chat.

(** C5. When the query is served, [fetchMessages] sets the page's messages
    to the messages of the given chat and no others, each exactly as often
    as the store holds it, in ascending order of [created_at]: every
    message is no later than all that follow it.  A message is a
    [Message.t]: sender, content, timestamp and read flag, next to its own
    id and the chat's. *)
Theorem fetchMessages_ascending (chatId : string) (w : Client State) :
  served 1 (faults (env w)) →
  ∃ w',
    fetchMessages chatId w = (Resolved tt, w')
    ∧ StronglySorted (λ a b, Message.created_at a ≤ Message.created_at b)
        (messages (page w'))
    ∧ messages (page w')
      ≡ₚ filter (λ m, Message.chat_id m = chatId) (Supabase.messages (store (env w)))
    ∧ (∀ m, m ∈ messages (page w') → Message.chat_id m = chatId)
    ∧ store (env w') = store (env w).
Proof.
  destruct w as [pg [st ed fs lg]]. cbn [page env store edge faults log].
  intros Hserved. unfold fetchMessages, setMessages. run_js.
  rewrite supabase_served by done. cbn.
  eexists. split; [reflexivity|]. cbn.
  split; [|split; [|split]].
  - apply (StronglySorted_merge_sort (Supabase.ascending Message.created_at)).
  - apply merge_sort_Permutation.
  - intros m Hm. rewrite merge_sort_Permutation in Hm.
    by apply list_elem_of_filter in Hm as [? _].
  - done.
Qed.


(** The lookup finds no chat: one chat is inserted and activated. *)
Lemma findOrCreateChat_new (u : User.t) (farmerId cropId : string)
    (pg : State) st ed fs lg :
  served 2 fs →
  Supabase.chats_matching (User.uid u) farmerId cropId (Supabase.chats st) = [] →
  let payload :=
    {| ChatRoom.ins_buyer_id := User.uid u; ChatRoom.ins_farmer_id := farmerId;
       ChatRoom.ins_crop_id := cropId |} in
  let newChat := ChatRoom.row (Supabase.fresh_id "chat" st) (Supabase.tick st) payload in
  findOrCreateChat (Some u) farmerId cropId
    {| page := pg;
       env := {| store := st; edge := ed; faults := fs; log := lg |} |}
  = (Resolved tt,
     {| page := {| chats := newChat :: chats pg;
                   activeChat := Some (ChatRoom.id newChat);
                   messages := messages pg; newMessage := newMessage pg;
                   loading := loading pg |};
        env := {| store := (Supabase.chats_insert payload st).2; edge := ed;
                  faults := tail (tail fs);
                  log := lg ++ [Requested (ChatsByTriple (User.uid u) farmerId cropId);
                                Requested (ChatsInsert payload)] |} |}).
Proof.
  intros [H1 [H2 _]%served_S]%served_S Hmatch payload newChat.
  unfold findOrCreateChat, setActiveChat, setChats. run_js.
  rewrite supabase_served by done.
  cbn [serve fst snd Supabase.chats_by_triple]. rewrite Hmatch. cbn.
  rewrite supabase_served by done. cbn.
  rewrite <- !app_assoc. reflexivity.
Qed.



End ChatFacts.

(** ** Errors returned by the backend *)

Section ErrorFacts.
Implicit Types (st : Supabase.Store) (ed : CreateRazorpayOrder.World)
  (e : JsError) (lg : list Effect).



End ErrorFacts.

(** ** The authentication context *)

Section AuthFacts.
Import AuthContext.

Lemma upsert_row_elem (p : Profile.t) (rows : list Profile.t) :
  p ∈ Supabase.upsert_row p rows.
Proof.
  unfold Supabase.upsert_row. case_decide as Hex.
  - apply Exists_exists in Hex as (r & Hr & Hid).
    apply list_elem_of_fmap. exists r. by rewrite decide_True.
  - apply elem_of_app. right. by left.
Qed.

Lemma upsert_row_unique (p q : Profile.t) (rows : list Profile.t) :
  q ∈ Supabase.upsert_row p rows → Profile.id q = Profile.id p → q = p.
Proof.
  unfold Supabase.upsert_row. case_decide as Hex.
  - intros (r & -> & Hr)%list_elem_of_fmap. by case_decide.
  - intros [Hq|Hq%list_elem_of_singleton]%elem_of_app Hid; [|done].
    exfalso. apply Hex, Exists_exists. eauto.
Qed.

(** C7. A role is farmer, buyer or admin.  When a user signs in with the
    hard-coded admin phone, the role becomes admin, role selection is off,
    and the only call made is the upsert of the user's profile with role
    admin, which the store then holds.  For any other user the role is
    read from the user's profile: a stored role becomes the user's role,
    with role selection off; a profile without role, or no profile, gives a
    null role with role selection on.  [setUserRole] by a signed-in user
    upserts the chosen role; once the store has taken it, the role is set
    and role selection is off, and while the upsert fails the state stays
    as it was. *)
Theorem role_assignment (fu : User.t) (chosen : Role) (pg : State)
    st ed fs lg :
  let admin_profile :=
    {| Profile.id := User.uid fu; Profile.phone := User.phoneNumber fu;
       Profile.role := Some admin |} in
  let chosen_profile :=
    {| Profile.id := User.uid fu; Profile.phone := User.phoneNumber fu;
       Profile.role := Some chosen |} in
  let stored_roles :=
    Profile.role <$> filter (λ r, Profile.id r = User.uid fu) (Supabase.profiles st) in
  (∀ r : Role, r ∈ [farmer; buyer; admin])
  ∧ (User.phoneNumber fu = Some ADMIN_PHONE →
     ∃ w',
       onAuthStateChanged (Some fu) (world pg st ed fs lg) = (Resolved tt, w')
       ∧ user (page w') = Some fu
       ∧ userRole (page w') = Some admin
       ∧ needsRoleSelection (page w') = false
       ∧ log (env w') = lg ++ [Requested (ProfilesUpsert admin_profile)]
       ∧ (served 1 fs →
          ∀ p, p ∈ Supabase.profiles (store (env w')) →
               Profile.id p = User.uid fu → p = admin_profile)
       ∧ (served 1 fs → admin_profile ∈ Supabase.profiles (store (env w'))))
  ∧ (User.phoneNumber fu ≠ Some ADMIN_PHONE →
     served 1 fs →
     ∃ w',
       onAuthStateChanged (Some fu) (world pg st ed fs lg) = (Resolved tt, w')
       ∧ user (page w') = Some fu
       ∧ log (env w') = lg ++ [Requested (ProfilesRole (User.uid fu))]
       ∧ store (env w') = st
       ∧ (∀ r, stored_roles = [Some r] →
               userRole (page w') = Some r ∧ needsRoleSelection (page w') = false)
       ∧ (stored_roles = [None] ∨ stored_roles = [] →
          userRole (page w') = None ∧ needsRoleSelection (page w') = true))
  ∧ (user pg = Some fu →
     served 1 fs →
     ∃ w',
       setUserRole chosen (world pg st ed fs lg) = (Resolved tt, w')
       ∧ userRole (page w') = Some chosen
       ∧ needsRoleSelection (page w') = false
       ∧ log (env w') = lg ++ [Requested (ProfilesUpsert chosen_profile)]
       ∧ chosen_profile ∈ Supabase.profiles (store (env w')))
  ∧ (user pg = Some fu →
     ∀ e rest,
       setUserRole chosen (world pg st ed (Some e :: rest) lg)
       = (Resolved tt,
          world pg st ed rest (lg ++ [Requested (ProfilesUpsert chosen_profile)]))).
Proof.
  intros admin_profile chosen_profile stored_roles. unfold world.
  split; [intros []; set_solver|]. split; [|split; [|split]].
  - intros Hphone.
    unfold onAuthStateChanged, setUser, setUserRoleState, setNeedsRoleSelection,
      setLoading.
    run_js. rewrite decide_True by done. run_js.
    destruct fs as [|[e|] rest].
    + rewrite supabase_served by by repeat constructor. cbn.
      eexists. split; [reflexivity|]. cbn. do 4 (split; [done|]).
      split; intros _; [intros p; apply upsert_row_unique|apply upsert_row_elem].
    + rewrite supabase_faulted. cbn.
      eexists. split; [reflexivity|]. cbn. do 4 (split; [done|]).
      split; intros Hs; apply served_1 in Hs as [?|[? ?]]; done.
    + rewrite supabase_served by by repeat constructor. cbn.
      eexists. split; [reflexivity|]. cbn. do 4 (split; [done|]).
      split; intros _; [intros p; apply upsert_row_unique|apply upsert_row_elem].
  - intros Hphone Hserved.
    unfold onAuthStateChanged, setUser, setUserRoleState, setNeedsRoleSelection,
      setLoading.
    run_js. rewrite decide_False by done. run_js.
    rewrite supabase_served by done.
    cbn [serve fst snd Supabase.profiles_role]. fold stored_roles.
    destruct stored_roles as [|[r|] [|? ?]]; cbn;
      (eexists; split; [reflexivity|]); cbn; do 3 (split; [done|]);
      (split; [intros ? [=]; by subst|intros [[=]|[=]]; done]).
  - intros Huser Hserved. unfold setUserRole, setUserRoleState, setNeedsRoleSelection.
    run_js. rewrite Huser. rewrite supabase_served by done. cbn.
    eexists. split; [reflexivity|]. cbn. do 3 (split; [done|]).
    apply upsert_row_elem.
  - intros Huser e rest. unfold setUserRole. run_js. rewrite Huser.
    rewrite supabase_faulted. reflexivity.
Qed.
End AuthFacts.

(** ** The properties at work on the sample market *)

Lemma create_order_paise_and_500_witness :
  CreateRazorpayOrder.method (Sample.post 120) ≠ "OPTIONS"
  ∧ ∃ resp w' f,
      CreateRazorpayOrder.handler (Sample.post 120)
        (Sample.deployed (CreateRazorpayOrder.Refused "Authentication failed"))
      = (Resolved resp, w')
      ∧ submissions (CreateRazorpayOrder.done w') = [f]
      ∧ CreateRazorpayOrder.order_amount (CreateRazorpayOrder.fetch_body f) = 12000
      ∧ CreateRazorpayOrder.order_currency (CreateRazorpayOrder.fetch_body f) = "INR"
      ∧ resp = {| CreateRazorpayOrder.status := 500;
                  CreateRazorpayOrder.body :=
                    CreateRazorpayOrder.ErrorJson "Failed to create Razorpay order" |}.
Proof.
  assert (CreateRazorpayOrder.method (Sample.post 120) ≠ "OPTIONS") as Hm by done.
  split; [exact Hm|].
  destruct (create_order_paise_and_500 (Sample.post 120)
              (Sample.deployed (CreateRazorpayOrder.Refused "Authentication failed")) Hm)
    as (resp & w' & did & Hrun & Hdone & Hsent & _ & _ & _ & _ & Hrefused & _).
  destruct (Hsent _ eq_refl (conj eq_refl eq_refl)) as (f & Hf & _ & _ & Hamount & Hcur).
  destruct (Hrefused _ "Authentication failed" eq_refl (conj eq_refl eq_refl) eq_refl)
    as [Hresp _].
  exists resp, w', f. rewrite Hdone. by cbn.
Defined.

Lemma handlePayment_guards_witness :
  trim (CropDetail.address (page (Sample.crop_page 3 "   " []))) = ""
  ∧ ∃ shown shown_toast,
      (CropDetail.handlePayment (Some Sample.asha) (Sample.crop_page 3 "   " [])).2
      = world (page (Sample.crop_page 3 "   " [])) Sample.market
          (Sample.deployed (CreateRazorpayOrder.Created "order_R1")) [] shown
      ∧ offline shown ∧ Toasted shown_toast ∈ shown.
Proof.
  assert (trim (CropDetail.address (page (Sample.crop_page 3 "   " []))) = "") as Hblank
    by reflexivity.
  split; [exact Hblank|].
  destruct (handlePayment_guards (Some Sample.asha) (Sample.crop_page 3 "   " [])
              (or_intror (or_introl Hblank)))
    as (shown & shown_toast & Hrun & Hoff & Htoast).
  exists shown, shown_toast. by rewrite Hrun.
Defined.

Lemma stock_decrement_witness :
  Razorpay.crop Sample.purchase = Some Sample.rice
  ∧ Razorpay.quantity Sample.purchase ≤ Crop.quantity_kg Sample.rice
  ∧ served 2 (faults (env (Sample.crop_page 3 "12 Main Rd" [])))
  ∧ ∃ w',
      CropDetail.handler Sample.purchase Sample.paid_response
        (Sample.crop_page 3 "12 Main Rd" []) = (Resolved tt, w')
      ∧ ∀ row, row ∈ Supabase.crops (store (env w')) →
               Crop.id row = "crop-rice" →
               Crop.quantity_kg row = 7 ∧ (Crop.available row = true ↔ 7 > 0).
Proof.
  assert (Razorpay.crop Sample.purchase = Some Sample.rice) as H1 by reflexivity.
  assert (Razorpay.quantity Sample.purchase ≤ Crop.quantity_kg Sample.rice) as H2
    by (vm_compute; discriminate).
  assert (served 2 (faults (env (Sample.crop_page 3 "12 Main Rd" [])))) as H3
    by (by vm_compute).
  do 3 (split; [done|]).
  destruct (stock_decrement Sample.purchase Sample.paid_response
              (Sample.crop_page 3 "12 Main Rd" []) Sample.rice H1 H2 H3)
    as (w' & Hrun & _ & _ & Hrows).
  exists w'. split; [exact Hrun|exact Hrows].
Defined.

Lemma payment_record_without_buyer_witness :
  from_provider Sample.asha
  ∧ trim (CropDetail.address (page (Sample.crop_page 3 " 12 Main Rd " []))) ≠ ""
  ∧ CropDetail.quantity (page (Sample.crop_page 3 " 12 Main Rd " []))
    ≤ num_or (Crop.quantity_kg
                <$> CropDetail.crop (page (Sample.crop_page 3 " 12 Main Rd " []))) 0
  ∧ served 1 (faults (env (Sample.crop_page 3 " 12 Main Rd " [])))
  ∧ configured (edge (env (Sample.crop_page 3 " 12 Main Rd " [])))
  ∧ CreateRazorpayOrder.gateway (edge (env (Sample.crop_page 3 " 12 Main Rd " [])))
    = CreateRazorpayOrder.Created "order_R1"
  ∧ served 2 (faults (env (Sample.crop_page 3 " 12 Main Rd " [])))
  ∧ ∃ options w' w2 order,
      CropDetail.handlePayment (Some Sample.asha) (Sample.crop_page 3 " 12 Main Rd " [])
      = (Resolved tt, w')
      ∧ Razorpay.order_id options = "order_R1"
      ∧ log (env w')
        = [Requested (FunctionsInvoke "create-razorpay-order"
                        {| CreateRazorpayOrder.amount := 120;
                           CreateRazorpayOrder.cropId := Some "crop-rice";
                           CreateRazorpayOrder.quantity := 3 |});
           RazorpayOpened options]
      ∧ CropDetail.handler (Razorpay.handler options) Sample.paid_response
          (Sample.crop_page 3 " 12 Main Rd " [])
        = (Resolved tt, w2)
      ∧ Supabase.orders (store (env w2)) = [order]
      ∧ Order.buyer_id order = None
      ∧ Order.farmer_id order = Some "uid-ravi"
      ∧ Order.razorpay_payment_id order = Some "pay_P1".
Proof.
  assert (from_provider Sample.asha) as H0 by reflexivity.
  assert (trim (CropDetail.address (page (Sample.crop_page 3 " 12 Main Rd " []))) ≠ "")
    as H1 by (vm_compute; discriminate).
  assert (CropDetail.quantity (page (Sample.crop_page 3 " 12 Main Rd " []))
          ≤ num_or (Crop.quantity_kg
                      <$> CropDetail.crop (page (Sample.crop_page 3 " 12 Main Rd " []))) 0)
    as H2 by (vm_compute; discriminate).
  assert (served 1 (faults (env (Sample.crop_page 3 " 12 Main Rd " [])))) as H3
    by (by vm_compute).
  assert (configured (edge (env (Sample.crop_page 3 " 12 Main Rd " [])))) as H4
    by (split; reflexivity).
  assert (CreateRazorpayOrder.gateway (edge (env (Sample.crop_page 3 " 12 Main Rd " [])))
          = CreateRazorpayOrder.Created "order_R1") as H5 by reflexivity.
  assert (served 2 (faults (env (Sample.crop_page 3 " 12 Main Rd " [])))) as H6
    by (by vm_compute).
  do 7 (split; [done|]).
  destruct (payment_record_without_buyer Sample.asha (Sample.crop_page 3 " 12 Main Rd " [])
              "order_R1" H0 H1 H2 H3 H4 H5)
    as (options & w' & Hrun & Hlog & Hid & _ & Hhandler).
  destruct (Hhandler Sample.paid_response (Sample.crop_page 3 " 12 Main Rd " []) H6)
    as (w2 & order & Hrun2 & _ & Horders & Horder & Hbuyer & _).
  exists options, w', w2, order.
  split; [exact Hrun|]. split; [exact Hid|]. split; [exact Hlog|].
  split; [exact Hrun2|]. split; [exact Horders|]. split; [exact Hbuyer|].
  by rewrite Horder.
Defined.



Lemma fetchMessages_ascending_witness :
  served 1 (faults (env (Sample.chat_page [])))
  ∧ ∃ w',
      Chat.fetchMessages "chat-0" (Sample.chat_page []) = (Resolved tt, w')
      ∧ StronglySorted (λ a b, Message.created_at a ≤ Message.created_at b)
          (Chat.messages (page w'))
      ∧ Chat.messages (page w') ≡ₚ [Sample.hello; Sample.reply1].
Proof.
  assert (served 1 (faults (env (Sample.chat_page [])))) as H1 by (by vm_compute).
  split; [done|].
  destruct (fetchMessages_ascending "chat-0" (Sample.chat_page []) H1)
    as (w' & Hrun & Hsorted & Hperm & _).
  exists w'. do 2 (split; [done|]). exact Hperm.
Defined.

Lemma role_assignment_witness :
  User.phoneNumber Sample.root = Some AuthContext.ADMIN_PHONE
  ∧ User.phoneNumber Sample.asha ≠ Some AuthContext.ADMIN_PHONE
  ∧ served 1 (faults (env (Sample.auth [])))
  ∧ (∃ w',
       AuthContext.onAuthStateChanged (Some Sample.root) (Sample.auth [])
       = (Resolved tt, w')
       ∧ AuthContext.userRole (page w') = Some admin
       ∧ AuthContext.needsRoleSelection (page w') = false)
  ∧ (∃ w',
       AuthContext.onAuthStateChanged (Some Sample.asha) (Sample.auth [])
       = (Resolved tt, w')
       ∧ AuthContext.userRole (page w') = Some buyer
       ∧ AuthContext.needsRoleSelection (page w') = false).
Proof.
  assert (User.phoneNumber Sample.root = Some AuthContext.ADMIN_PHONE) as H1
    by reflexivity.
  assert (User.phoneNumber Sample.asha ≠ Some AuthContext.ADMIN_PHONE) as H2
    by discriminate.
  assert (served 1 (faults (env (Sample.auth [])))) as H3 by (by vm_compute).
  do 3 (split; [done|]). split.
  - destruct (role_assignment Sample.root farmer (page (Sample.auth [])) Sample.market
                (Sample.deployed (CreateRazorpayOrder.Created "order_R1")) [] [])
      as (_ & Hadmin & _).
    destruct (Hadmin H1) as (w' & Hrun & _ & Hrole & Hneeds & _).
    exists w'. done.
  - destruct (role_assignment Sample.asha farmer (page (Sample.auth [])) Sample.market
                (Sample.deployed (CreateRazorpayOrder.Created "order_R1")) [] [])
      as (_ & _ & Hother & _).
    destruct (Hother H2 H3) as (w' & Hrun & _ & _ & _ & Hstored & _).
    exists w'. split; [exact Hrun|]. by apply Hstored.
Defined.

(** * Further properties of the pages *)

Global Instance descending_total {A} (column : A → Z) : Total (Supabase.descending column).
Proof. intros a b. unfold Supabase.descending. lia. Qed.

Global Instance descending_trans {A} (column : A → Z) : Transitive (Supabase.descending column).
Proof. intros a b c. unfold Supabase.descending. lia. Qed.

(** ** The chat list and the messages *)

Section ChatListFacts.
Import Chat.

(** X1. When the query is served, [fetchChats] replaces the page's chats by the
    chats in which the signed-in user is the buyer or the farmer, each as
    often as the store holds it, most recently updated first, and ends the
    loading state; the store is only read. *)
Theorem fetchChats_newest_first (u : User.t) (w : Client State) :
  served 1 (faults (env w)) →
  ∃ w',
    fetchChats (Some u) w = (Resolved tt, w')
    ∧ StronglySorted (λ a b, ChatRoom.updated_at b ≤ ChatRoom.updated_at a)
        (chats (page w'))
    ∧ chats (page w')
      ≡ₚ filter (λ c, ChatRoom.buyer_id c = User.uid u ∨ ChatRoom.farmer_id c = User.uid u)
           (Supabase.chats (store (env w)))
    ∧ loading (page w') = false
    ∧ activeChat (page w') = activeChat (page w)
    ∧ store (env w') = store (env w).
Proof.
  destruct w as [pg [st ed fs lg]]. cbn [page env store edge faults log].
  intros Hserved. unfold fetchChats, setChats, setLoading. run_js.
  rewrite supabase_served by done. cbn.
  eexists. split; [reflexivity|]. cbn.
  split; [|split; [|done]].
  - apply (StronglySorted_merge_sort (Supabase.descending ChatRoom.updated_at)).
  - apply merge_sort_Permutation.
Qed.

(** X2. [sendMessage] does nothing at all when the draft is blank once trimmed,
    when no chat is active, or when nobody is signed in: no call to the
    store, no toast, and the draft stays as typed. *)
Theorem sendMessage_guards (user : option User.t) (w : Client State) :
  trim (newMessage (page w)) = ""
  ∨ activeChat (page w) = None
  ∨ activeChat (page w) = Some ""
  ∨ user = None →
  sendMessage user w = (Resolved tt, w).
Proof.
  destruct w as [pg [st ed fs lg]]. cbn [page env store edge faults log].
  intros Hguard. unfold sendMessage. run_js.
  destruct (activeChat pg) as [chat|] eqn:Hchat; [|done].
  destruct user as [u|]; [|done].
  destruct Hguard as [Hblank|[?|[[= ->]|?]]]; try done.
  - apply truthy_false in Hblank. by rewrite Hblank.
  - by rewrite orb_true_r.
Qed.

(** A send that passes the guards, with both calls served. *)
Lemma sendMessage_served (u : User.t) (pg : State) st ed fs lg (chat : string) :
  activeChat pg = Some chat →
  chat ≠ "" →
  trim (newMessage pg) ≠ "" →
  served 2 fs →
  let payload :=
    {| Message.ins_chat_id := chat; Message.ins_sender_id := User.uid u;
       Message.ins_content := trim (newMessage pg) |} in
  sendMessage (Some u) (world pg st ed fs lg)
  = (Resolved tt,
     world (cleared pg)
       (Supabase.chats_touch chat (Supabase.messages_insert payload st).2).2
       ed (tail (tail fs))
       (lg ++ [Requested (MessagesInsert payload); Requested (ChatsTouch chat)])).
Proof.
  intros Hchat Hne%truthy_true Hmsg%truthy_true [H1 [H2 _]%served_S]%served_S payload.
  unfold world, sendMessage, setNewMessage. run_js. rewrite Hchat, Hmsg, Hne.
  cbn [negb orb]. run_js.
  rewrite supabase_served by done. cbn.
  rewrite supabase_served by done. cbn.
  rewrite <- !app_assoc. reflexivity.
Qed.

Lemma fetchMessages_served (chatId : string) (pg : State) st ed fs lg :
  served 1 fs →
  fetchMessages chatId (world pg st ed fs lg)
  = (Resolved tt,
     world {| chats := chats pg; activeChat := activeChat pg;
              messages :=
                merge_sort (Supabase.ascending Message.created_at)
                  (filter (λ m, Message.chat_id m = chatId) (Supabase.messages st));
              newMessage := newMessage pg; loading := loading pg |}
       st ed (tail fs) (lg ++ [Requested (MessagesOf chatId)])).
Proof.
  intros Hserved. unfold world, fetchMessages, setMessages. run_js.
  rewrite supabase_served by done. reflexivity.
Qed.

(** X3. A message that is sent is read back: when a signed-in user sends a
    non-blank draft in the active chat and the store serves the calls, a
    following [fetchMessages] of that chat shows all the messages the chat
    had, plus one new unread message from that user whose content is the
    trimmed draft; the draft is cleared. *)
Theorem sendMessage_then_fetch (u : User.t) (w : Client State) (chat : string) :
  activeChat (page w) = Some chat →
  chat ≠ "" →
  trim (newMessage (page w)) ≠ "" →
  served 3 (faults (env w)) →
  ∃ w' sent,
    (sendMessage (Some u);; fetchMessages chat) w = (Resolved tt, w')
    ∧ Message.content sent = trim (newMessage (page w))
    ∧ Message.sender_id sent = User.uid u
    ∧ Message.chat_id sent = chat
    ∧ Message.read sent = false
    ∧ messages (page w')
      ≡ₚ filter (λ m, Message.chat_id m = chat) (Supabase.messages (store (env w)))
         ++ [sent]
    ∧ newMessage (page w') = "".
Proof.
  destruct w as [pg [st ed fs lg]]. cbn [page env store edge faults log].
  intros Hchat Hne Hmsg [H1 [H2 [H3 _]%served_S]%served_S]%served_S.
  assert (served 2 fs) as H12.
  { unfold served in *. destruct fs as [|? [|? ?]]; cbn in *; try done.
    apply Forall_cons in H1 as [-> _]. apply Forall_cons in H2 as [-> _].
    by repeat constructor. }
  unfold mbind, M_bind.
  pose proof (sendMessage_served u pg st ed fs lg chat Hchat Hne Hmsg H12) as Hsend.
  unfold world in Hsend. cbn zeta in Hsend. rewrite Hsend.
  pose proof (fetchMessages_served chat (cleared pg)) as Hfetch.
  unfold world in Hfetch. rewrite Hfetch by done.
  eexists _, (Message.row (Supabase.fresh_id "message" st) (Supabase.tick st)
                {| Message.ins_chat_id := chat; Message.ins_sender_id := User.uid u;
                   Message.ins_content := trim (newMessage pg) |}).
  split; [reflexivity|]. cbn.
  do 4 (split; [reflexivity|]). split; [|done].
  rewrite merge_sort_Permutation, filter_app, filter_cons_True by done.
  reflexivity.
Qed.

(** X4. A failed send keeps the draft: when the insert of the message returns an
    error, the error is toasted, the page (draft included) and the store are
    as before, and the chat's timestamp is not touched: the insert is the
    only call made. *)
Theorem sendMessage_failure_keeps_draft (u : User.t) (pg : State) st ed e rest lg
    (chat : string) :
  activeChat pg = Some chat →
  chat ≠ "" →
  trim (newMessage pg) ≠ "" →
  sendMessage (Some u) (world pg st ed (Some e :: rest) lg)
  = (Resolved tt,
     world pg st ed rest
       (lg ++ [Requested (MessagesInsert
                 {| Message.ins_chat_id := chat; Message.ins_sender_id := User.uid u;
                    Message.ins_content := trim (newMessage pg) |});
               error_shown e])).
Proof.
  intros Hchat Hne%truthy_true Hmsg%truthy_true.
  unfold world, sendMessage, error_shown, error_toast. run_js.
  rewrite Hchat, Hmsg, Hne. cbn [negb orb]. run_js.
  rewrite supabase_faulted. cbn [Supabase.error Supabase.failed]. run_js.
  by rewrite <- app_assoc.
Qed.

(** X5. The timestamp update after a stored message is fire-and-forget: when it
    returns an error, nothing is shown, the message stays stored, the draft
    is cleared, and the chats are as they were. *)
Theorem sendMessage_touch_failure_silent (u : User.t) (pg : State) st ed e rest lg
    (chat : string) :
  activeChat pg = Some chat →
  chat ≠ "" →
  trim (newMessage pg) ≠ "" →
  let payload :=
    {| Message.ins_chat_id := chat; Message.ins_sender_id := User.uid u;
       Message.ins_content := trim (newMessage pg) |} in
  sendMessage (Some u) (world pg st ed (None :: Some e :: rest) lg)
  = (Resolved tt,
     world (cleared pg) (Supabase.messages_insert payload st).2 ed rest
       (lg ++ [Requested (MessagesInsert payload); Requested (ChatsTouch chat)]))
  ∧ Supabase.chats (Supabase.messages_insert payload st).2 = Supabase.chats st.
Proof.
  intros Hchat Hne%truthy_true Hmsg%truthy_true payload. split; [|done].
  unfold world, sendMessage, setNewMessage. run_js.
  rewrite Hchat, Hmsg, Hne. cbn [negb orb]. run_js.
  rewrite supabase_served by by repeat constructor.
  cbn [serve fst snd tail Supabase.messages_insert Supabase.error Supabase.no_content].
  run_js. rewrite supabase_faulted. by rewrite <- !app_assoc.
Qed.

(** X6. A change notification appends the new message after the ones shown.  The
    list stays in ascending order of [created_at] provided the new message
    is no earlier than every message shown. *)
Theorem onInsert_keeps_order (payload_new : Message.t) (w : Client State) :
  StronglySorted (λ a b, Message.created_at a ≤ Message.created_at b)
    (messages (page w)) →
  (∀ m, m ∈ messages (page w) →
        Message.created_at m ≤ Message.created_at payload_new) →
  ∃ w',
    onInsert payload_new w = (Resolved tt, w')
    ∧ messages (page w') = messages (page w) ++ [payload_new]
    ∧ StronglySorted (λ a b, Message.created_at a ≤ Message.created_at b)
        (messages (page w'))
    ∧ env w' = env w.
Proof.
  destruct w as [pg en]. cbn [page env]. intros Hsorted Hlater.
  unfold onInsert, setMessages. run_js.
  eexists. split; [reflexivity|]. cbn. split; [done|]. split; [|done].
  apply StronglySorted_app. split; [|split; [done|by repeat constructor]].
  intros m1 m2 Hm1 ->%list_elem_of_singleton. by apply Hlater.
Qed.
End ChatListFacts.

(** ** The crop page, beyond the purchase itself *)

Section CropPageFacts.
Import CropDetail.

Ltac gateway_cases :=
  repeat match goal with
    | |- context [?m !! ?k] =>
        let H := fresh "Hget" in destruct (m !! k) as [[|??]|] eqn:H
    | g : CreateRazorpayOrder.Gateway |- _ => destruct g
    end.

(** The function call as the page sees it, when the edge function fails. *)
Lemma invoke_edge_failure (body : CreateRazorpayOrder.Body) ed :
  failure {| CreateRazorpayOrder.method := "POST";
             CreateRazorpayOrder.json := Resolved body |} ed →
  ∃ ed',
    @invoke_edge "create-razorpay-order" body ed
    = (Supabase.failed FunctionsHttpError, ed').
Proof.
  unfold failure, invoke_edge, CreateRazorpayOrder.handler.
  rewrite decide_True by done. rewrite decide_False by done.
  destruct ed as [denv t0 gw dn].
  cbn [CreateRazorpayOrder.json CreateRazorpayOrder.Deno_env CreateRazorpayOrder.gateway].
  run_js.
  cbn [CreateRazorpayOrder.json CreateRazorpayOrder.Deno_env CreateRazorpayOrder.gateway
       CreateRazorpayOrder.now CreateRazorpayOrder.done].
  gateway_cases; cbn; intros Hfail; try (by eexists).
  all: exfalso; destruct Hfail as [[? ?]|[?|[?|[[? ?]|[[? ?]|[? ?]]]]]]; discriminate.
Qed.

(** The function call as the page sees it, when the credentials are there:
    exactly one order is submitted to the payment API, for the body's amount
    times 100. *)
Lemma invoke_edge_configured (body : CreateRazorpayOrder.Body) ed :
  configured ed →
  ∃ res ed' did f,
    @invoke_edge "create-razorpay-order" body ed = (res, ed')
    ∧ CreateRazorpayOrder.done ed' = CreateRazorpayOrder.done ed ++ did
    ∧ submissions did = [f]
    ∧ CreateRazorpayOrder.url f = "https://api.razorpay.com/v1/orders"
    ∧ CreateRazorpayOrder.order_amount (CreateRazorpayOrder.fetch_body f)
      = CreateRazorpayOrder.amount body * 100
    ∧ CreateRazorpayOrder.order_currency (CreateRazorpayOrder.fetch_body f) = "INR"
    ∧ CreateRazorpayOrder.order_notes (CreateRazorpayOrder.fetch_body f)
      = {| CreateRazorpayOrder.notes_cropId := CreateRazorpayOrder.cropId body;
           CreateRazorpayOrder.notes_quantity := CreateRazorpayOrder.quantity body |}.
Proof.
  intros [Hk Hs]. unfold invoke_edge, CreateRazorpayOrder.handler.
  rewrite decide_True by done. rewrite decide_False by done.
  destruct ed as [denv t0 gw dn]. cbn in Hk, Hs.
  cbn [CreateRazorpayOrder.json CreateRazorpayOrder.Deno_env CreateRazorpayOrder.gateway].
  run_js.
  cbn [CreateRazorpayOrder.json CreateRazorpayOrder.Deno_env CreateRazorpayOrder.gateway
       CreateRazorpayOrder.now CreateRazorpayOrder.done].
  rewrite Hk, Hs. cbn [orb].
  destruct gw; cbn; do 4 eexists;
    (split; [reflexivity|]); cbn [CreateRazorpayOrder.done];
    (split; [rewrite <- ?app_assoc; reflexivity|]); by cbn.
Qed.

(** X10. When the edge function cannot create the order (a credential is missing,
    or the payment API is unreachable, refuses, or answers garbage), a
    purchase that passed the guards ends with an error toast: the checkout
    widget is never opened, the store is untouched and the page is no longer
    paying. *)
Theorem handlePayment_edge_failure (u : User.t) (pg : State) st ed fs lg :
  trim (address pg) ≠ "" →
  quantity pg ≤ num_or (Crop.quantity_kg <$> crop pg) 0 →
  served 1 fs →
  failure {| CreateRazorpayOrder.method := "POST";
             CreateRazorpayOrder.json := Resolved (invoke_body pg) |} ed →
  ∃ ed',
    handlePayment (Some u) (world pg st ed fs lg)
    = (Resolved tt,
       world (idle pg) st ed' (tail fs)
         (lg ++ [Requested (FunctionsInvoke "create-razorpay-order" (invoke_body pg));
                 error_shown FunctionsHttpError])).
Proof.
  intros Haddr%truthy_true Hq Hserved Hfail.
  destruct (invoke_edge_failure _ _ Hfail) as [ed' Hinv].
  exists ed'. unfold world, invoke_body, error_shown, idle in *.
  unfold handlePayment, setPaying, error_toast. run_js.
  rewrite Haddr. cbn [negb]. rewrite decide_False by lia. run_js.
  rewrite supabase_served by done. cbn [serve fst snd].
  rewrite Hinv. cbn. by rewrite <- !app_assoc.
Qed.

(** X11. The amount that reaches the payment API is the crop's price per kilogram
    times the quantity, in paise: whenever a purchase of a loaded crop passes
    the guards, the call is served and the edge function has its
    credentials, exactly one order is submitted, with amount
    [price_per_kg * quantity * 100], currency INR, and the crop's id and the
    quantity as notes. *)
Theorem checkout_amount_submitted (u : User.t) (w : Client State) (c : Crop.t) :
  crop (page w) = Some c →
  trim (address (page w)) ≠ "" →
  quantity (page w) ≤ Crop.quantity_kg c →
  served 1 (faults (env w)) →
  configured (edge (env w)) →
  ∃ w' did f,
    handlePayment (Some u) w = (Resolved tt, w')
    ∧ CreateRazorpayOrder.done (edge (env w'))
      = CreateRazorpayOrder.done (edge (env w)) ++ did
    ∧ submissions did = [f]
    ∧ CreateRazorpayOrder.order_amount (CreateRazorpayOrder.fetch_body f)
      = Crop.price_per_kg c * quantity (page w) * 100
    ∧ CreateRazorpayOrder.order_currency (CreateRazorpayOrder.fetch_body f) = "INR"
    ∧ CreateRazorpayOrder.order_notes (CreateRazorpayOrder.fetch_body f)
      = {| CreateRazorpayOrder.notes_cropId := Some (Crop.id c);
           CreateRazorpayOrder.notes_quantity := quantity (page w) |}.
Proof.
  destruct w as [pg [st ed fs lg]]. cbn [page env store edge faults log].
  intros Hc Haddr%truthy_true Hq Hserved Hconf.
  destruct (invoke_edge_configured (invoke_body pg) ed Hconf)
    as (res & ed' & did & f & Hinv & Hdone & Hsub & _ & Hamount & Hcur & Hnotes).
  unfold invoke_body in *. unfold totalPrice in *. rewrite Hc in *.
  cbn [fmap option_fmap option_map CreateRazorpayOrder.amount CreateRazorpayOrder.cropId
       CreateRazorpayOrder.quantity] in *.
  unfold handlePayment, setPaying, totalPrice. run_js.
  rewrite Hc, Haddr. cbn [negb fmap option_fmap option_map].
  rewrite num_or_0. rewrite decide_False by lia. run_js.
  rewrite supabase_served by done. cbn [serve fst snd]. rewrite Hinv.
  destruct res as [[order|] [err|]]; cbn; eexists; exists did, f;
    (split; [reflexivity|]); cbn; done.
Qed.

(** A purchase that passes the guards, whatever the network and the edge
    function do: one call of the function, then either the widget or an
    error toast. *)
Lemma handlePayment_past_guards (u : User.t) (pg : State) st ed fs lg :
  truthy (trim (address pg)) = true →
  quantity pg ≤ num_or (Crop.quantity_kg <$> crop pg) 0 →
  ∃ ed' fs' outcome,
    handlePayment (Some u) (world pg st ed fs lg)
    = (Resolved tt,
       world (idle pg) st ed' fs'
         (lg ++ [Requested (FunctionsInvoke "create-razorpay-order" (invoke_body pg));
                 outcome]))
    ∧ ((∃ options, outcome = RazorpayOpened options)
       ∨ (∃ e, outcome = error_shown e)).
Proof.
  intros Haddr Hq. unfold world, invoke_body, error_shown, idle.
  unfold handlePayment, setPaying, error_toast. run_js.
  rewrite Haddr. cbn [negb]. rewrite decide_False by lia. run_js.
  destruct fs as [|[e|] rest].
  - rewrite supabase_served by by repeat constructor. cbn [serve fst snd].
    destruct (invoke_edge _ _ ed) as [[[order|] [err|]] ed']; cbn;
      do 3 eexists; (split; [by rewrite <- !app_assoc|]);
      first [ left; by eexists | right; by eexists | right; by eexists (mkError _) ].
  - rewrite supabase_faulted. cbn.
    do 3 eexists. split; [by rewrite <- !app_assoc|]. eauto.
  - rewrite supabase_served by by repeat constructor. cbn [serve fst snd].
    destruct (invoke_edge _ _ ed) as [[[order|] [err|]] ed']; cbn;
      do 3 eexists; (split; [by rewrite <- !app_assoc|]);
      first [ left; by eexists | right; by eexists | right; by eexists (mkError _) ].
Qed.

(** X9. [handlePayment] always comes back: whoever is signed in and whatever the
    network and the edge function answer, it resolves, leaves the store as it
    was, leaves the page as it was apart from ending the paying state, and
    gives the buyer exactly one kind of feedback: a toast, or the checkout
    widget. *)
Theorem handlePayment_settles (user : option User.t) (w : Client State) :
  ∃ w' did,
    handlePayment user w = (Resolved tt, w')
    ∧ store (env w') = store (env w)
    ∧ (page w' = page w ∨ page w' = idle (page w))
    ∧ log (env w') = log (env w) ++ did
    ∧ ((∃ x, Toasted x ∈ did) ∧ (∀ options, RazorpayOpened options ∉ did)
       ∨ (∃ options, RazorpayOpened options ∈ did) ∧ toastless did).
Proof.
  destruct w as [pg [st ed fs lg]]. cbn [page env store edge faults log].
  destruct user as [u|];
    [destruct (truthy (trim (address pg))) eqn:Haddr;
     [destruct (decide (quantity pg > num_or (Crop.quantity_kg <$> crop pg) 0)) as [Hq|Hq]|]|].
  - unfold handlePayment. run_js. rewrite Haddr. cbn [negb].
    rewrite decide_True by done. run_js.
    do 2 eexists. split; [reflexivity|]. cbn. do 2 (split; [auto|]).
    split; [reflexivity|]. left. split; [eexists; by left|].
    intros o Ho. apply elem_of_cons in Ho as [Ho|Ho]; [discriminate|].
    by apply elem_of_nil in Ho.
  - destruct (handlePayment_past_guards u pg st ed fs lg Haddr ltac:(lia))
      as (ed' & fs' & outcome & Hrun & Hout).
    unfold world in Hrun. rewrite Hrun.
    do 2 eexists. split; [reflexivity|]. cbn. do 2 (split; [auto|]).
    split; [reflexivity|].
    destruct Hout as [[o ->]|[e ->]]; [right|left].
    + split; [eexists; right; by left|]. by repeat constructor.
    + split; [eexists; right; by left|].
      intros o Ho. unfold error_shown in Ho.
      do 2 (apply elem_of_cons in Ho as [Ho|Ho]; [discriminate|]).
      by apply elem_of_nil in Ho.
  - unfold handlePayment. run_js. rewrite Haddr. cbn [negb]. run_js.
    do 2 eexists. split; [reflexivity|]. cbn. do 2 (split; [auto|]).
    split; [reflexivity|]. left. split; [eexists; by left|].
    intros o Ho. apply elem_of_cons in Ho as [Ho|Ho]; [discriminate|].
    by apply elem_of_nil in Ho.
  - unfold handlePayment. run_js.
    do 2 eexists. split; [reflexivity|]. cbn. do 2 (split; [auto|]).
    split; [by rewrite <- app_assoc|]. left. split; [eexists; by left|].
    intros o Ho. do 2 (apply elem_of_cons in Ho as [Ho|Ho]; [discriminate|]).
    by apply elem_of_nil in Ho.
Qed.

(** X12. The quantity input clamps what is typed to the stock of the crop, so a
    purchase made right after it is never stopped for insufficient stock:
    with a signed-in buyer and a non-blank address the first thing that
    happens is the call of the order-creation function, for the clamped
    quantity. *)
Theorem quantity_input_clamped (u : User.t) (w : Client State) (c : Crop.t)
    (value : number) :
  crop (page w) = Some c →
  trim (address (page w)) ≠ "" →
  ∃ w' outcome,
    (onQuantityChange c value;; handlePayment (Some u)) w = (Resolved tt, w')
    ∧ quantity (page w') = Z.min value (Crop.quantity_kg c)
    ∧ quantity (page w') ≤ Crop.quantity_kg c
    ∧ log (env w')
      = log (env w)
        ++ [Requested (FunctionsInvoke "create-razorpay-order"
                         {| CreateRazorpayOrder.amount :=
                              Crop.price_per_kg c * Z.min value (Crop.quantity_kg c);
                            CreateRazorpayOrder.cropId := Some (Crop.id c);
                            CreateRazorpayOrder.quantity :=
                              Z.min value (Crop.quantity_kg c) |});
            outcome].
Proof.
  destruct w as [pg [st ed fs lg]]. cbn [page env store edge faults log].
  intros Hc Haddr%truthy_true.
  unfold mbind, M_bind, onQuantityChange, setQuantity, setState, modify.
  cbn [page env].
  set (pg' := {| crop := crop pg; quantity := Z.min value (Crop.quantity_kg c);
                 address := address pg; loading := loading pg; paying := paying pg |}).
  destruct (handlePayment_past_guards u pg' st ed fs lg) as (ed' & fs' & outcome & Hrun & _).
  { done. }
  { subst pg'. cbn [crop quantity]. rewrite Hc.
    cbn [fmap option_fmap option_map]. rewrite num_or_0. lia. }
  unfold world in Hrun. rewrite Hrun.
  do 2 eexists. split; [reflexivity|]. subst pg'. cbn.
  split; [done|]. split; [lia|].
  unfold invoke_body, totalPrice. cbn. by rewrite Hc.
Qed.

(** X8. [fetchCrop] loads the crop exactly when the store has exactly one row
    with that id: the row becomes the page's crop and nothing is shown.  With
    no such row (or several) the previous crop stays and the error of the
    query is toasted.  Either way the loading state ends and the store is
    only read. *)
Theorem fetchCrop_outcomes (id : string) (w : Client State) :
  served 1 (faults (env w)) →
  ∃ w',
    fetchCrop id w = (Resolved tt, w')
    ∧ loading (page w') = false
    ∧ store (env w') = store (env w)
    ∧ (∀ c, filter (λ c, Crop.id c = id) (Supabase.crops (store (env w))) = [c] →
            crop (page w') = Some c
            ∧ log (env w') = log (env w) ++ [Requested (CropsById id)])
    ∧ (length (filter (λ c, Crop.id c = id) (Supabase.crops (store (env w)))) ≠ 1%nat →
       crop (page w') = crop (page w)
       ∧ log (env w')
         = log (env w) ++ [Requested (CropsById id); error_shown Supabase.PGRST116]).
Proof.
  destruct w as [pg [st ed fs lg]]. cbn [page env store edge faults log].
  intros Hserved. unfold fetchCrop, setCrop, setLoading, error_toast. run_js.
  rewrite supabase_served by done. cbn [serve fst snd Supabase.crops_by_id].
  destruct (filter _ (Supabase.crops st)) as [|c [|c' rows]]; cbn;
    (eexists; split; [reflexivity|]); cbn; do 2 (split; [done|]); split.
  all: try (intros ? [=]; subst; done).
  all: try (intros _; by rewrite <- app_assoc).
  all: intros Hlen; by cbn in Hlen.
Qed.
End CropPageFacts.

(** ** The orders list *)

Section OrdersListFacts.
Import Orders.

(** X14. The orders page asks for the orders of [user?.id], not of the user's
    [uid].  For the user objects of the identity provider, which have no
    [id], the filter it sends is the text [undefined]: when the query is
    served, [fetchOrders] lists the orders whose buyer or farmer column
    holds that text, each as often as the store holds it, newest first, and
    ends the loading state; no other order of the store is listed, nothing
    is shown and the store is only read. *)
Theorem fetchOrders_of_undefined (u : User.t) (w : Client State) :
  from_provider u →
  served 1 (faults (env w)) →
  ∃ w',
    fetchOrders (Some u) w = (Resolved tt, w')
    ∧ log (env w') = log (env w) ++ [Requested (OrdersOf "undefined")]
    ∧ StronglySorted (λ a b, Order.created_at b ≤ Order.created_at a)
        (orders (page w'))
    ∧ orders (page w')
      ≡ₚ filter (λ o, Order.buyer_id o = Some "undefined"
                      ∨ Order.farmer_id o = Some "undefined")
           (Supabase.orders (store (env w)))
    ∧ (∀ o, Order.buyer_id o ≠ Some "undefined" →
            Order.farmer_id o ≠ Some "undefined" → o ∉ orders (page w'))
    ∧ loading (page w') = false
    ∧ store (env w') = store (env w).
Proof.
  destruct w as [pg [st ed fs lg]]. cbn [page env store edge faults log].
  intros Hid Hserved. red in Hid. unfold fetchOrders, setOrders, setLoading. run_js.
  cbn [mbind option_bind]. rewrite Hid. cbn [template default].
  rewrite supabase_served by done. cbn.
  eexists. split; [reflexivity|]. cbn.
  split; [done|]. split; [|split; [|split; [|done]]].
  - apply (StronglySorted_merge_sort (Supabase.descending Order.created_at)).
  - apply merge_sort_Permutation.
  - intros o Hb Hf. rewrite merge_sort_Permutation, list_elem_of_filter. tauto.
Qed.

(** X15. An order placed through the checkout handler does not show up in the
    buyer's orders.  For a user object of the identity provider, once the
    handler has run with its calls served the store holds the paid order,
    with the payment reference of the widget's response and without a
    buyer; [fetchOrders] for the same user then lists what it would have
    listed before the purchase, and not that order (the farmer of the crop
    not being called [undefined]). *)
Theorem purchase_not_listed (cl : Razorpay.Closure) (response : Razorpay.Response)
    (wc : Client CropDetail.State) (pgO : State) :
  from_provider (Razorpay.user cl) →
  (Crop.farmer_id <$> Razorpay.crop cl) ≠ Some "undefined" →
  served 3 (faults (env wc)) →
  ∃ wc' wo' order,
    CropDetail.handler cl response wc = (Resolved tt, wc')
    ∧ fetchOrders (Some (Razorpay.user cl)) {| page := pgO; env := env wc' |}
      = (Resolved tt, wo')
    ∧ Supabase.orders (store (env wo')) = Supabase.orders (store (env wc)) ++ [order]
    ∧ Order.status order = paid
    ∧ Order.quantity_kg order = Razorpay.quantity cl
    ∧ Order.razorpay_payment_id order = Razorpay.razorpay_payment_id response
    ∧ Order.buyer_id order = None
    ∧ (order ∉ orders (page wo'))
    ∧ orders (page wo')
      ≡ₚ filter (λ o, Order.buyer_id o = Some "undefined"
                      ∨ Order.farmer_id o = Some "undefined")
           (Supabase.orders (store (env wc))).
Proof.
  destruct wc as [pg [st ed fs lg]]. cbn [page env store edge faults log].
  intros Hid Hfarmer [H1 [H2 [H3 _]%served_S]%served_S]%served_S. red in Hid.
  assert (served 2 fs) as H12.
  { unfold served in *. destruct fs as [|? [|? ?]]; cbn in *; try done.
    apply Forall_cons in H1 as [-> _]. apply Forall_cons in H2 as [-> _].
    by repeat constructor. }
  do 2 eexists.
  exists (Order.row (Supabase.fresh_id "order" st) (Supabase.tick st)
            {| Order.ins_buyer_id := User.id (Razorpay.user cl);
               Order.ins_farmer_id := Crop.farmer_id <$> Razorpay.crop cl;
               Order.ins_crop_id := Crop.id <$> Razorpay.crop cl;
               Order.ins_quantity_kg := Razorpay.quantity cl;
               Order.ins_total_price := Razorpay.totalPrice cl;
               Order.ins_status := paid;
               Order.ins_delivery_address := Razorpay.address cl;
               Order.ins_razorpay_order_id := Razorpay.razorpay_order_id response;
               Order.ins_razorpay_payment_id := Razorpay.razorpay_payment_id response |}).
  split; [by apply handler_served|]. cbn [env].
  split.
  { unfold fetchOrders, setOrders, setLoading. run_js.
    cbn [mbind option_bind]. rewrite Hid. cbn [template default].
    rewrite supabase_served by done. reflexivity. }
  cbn. rewrite Hid. do 5 (split; [done|]).
  assert (filter (λ o, Order.buyer_id o = Some "undefined"
                       ∨ Order.farmer_id o = Some "undefined")
            (Supabase.orders st
             ++ [Order.row (Supabase.fresh_id "order" st) (Supabase.tick st)
                   {| Order.ins_buyer_id := None;
                      Order.ins_farmer_id := Crop.farmer_id <$> Razorpay.crop cl;
                      Order.ins_crop_id := Crop.id <$> Razorpay.crop cl;
                      Order.ins_quantity_kg := Razorpay.quantity cl;
                      Order.ins_total_price := Razorpay.totalPrice cl;
                      Order.ins_status := paid;
                      Order.ins_delivery_address := Razorpay.address cl;
                      Order.ins_razorpay_order_id := Razorpay.razorpay_order_id response;
                      Order.ins_razorpay_payment_id :=
                        Razorpay.razorpay_payment_id response |}])
          = filter (λ o, Order.buyer_id o = Some "undefined"
                         ∨ Order.farmer_id o = Some "undefined")
              (Supabase.orders st)) as Hsame.
  { rewrite filter_app, filter_cons_False, filter_nil, app_nil_r; [done|].
    cbn. by intros [?|?]. }
  rewrite Hsame. split; [|apply merge_sort_Permutation].
  rewrite merge_sort_Permutation, list_elem_of_filter. cbn. by intros [[?|?] _].
Qed.
End OrdersListFacts.

(** ** The authentication state *)

Section AuthStateFacts.
Import AuthContext.

(** X16. Whatever user the identity provider reports (or none) and whatever the
    store answers, the listener resolves with the loading state ended and
    the reported user recorded, and leaves the state coherent: role
    selection is pending only for a signed-in user without a role, and a
    signed-out user has no role.  For a signed-out user no call is made. *)
Theorem onAuthStateChanged_coherent (firebaseUser : option User.t) (w : Client State) :
  ∃ w',
    onAuthStateChanged firebaseUser w = (Resolved tt, w')
    ∧ user (page w') = firebaseUser
    ∧ loading (page w') = false
    ∧ coherent (page w')
    ∧ (firebaseUser = None → env w' = env w).
Proof.
  destruct w as [pg [st ed fs lg]].
  unfold onAuthStateChanged, setUser, setUserRoleState, setNeedsRoleSelection, setLoading.
  run_js. destruct firebaseUser as [fu|].
  - case_decide as Hphone; run_js.
    + destruct fs as [|[e|] rest];
        [rewrite supabase_served by by repeat constructor
        |rewrite supabase_faulted
        |rewrite supabase_served by by repeat constructor];
        cbn; (eexists; split; [reflexivity|]); cbn;
        unfold coherent; cbn; by repeat split.
    + destruct fs as [|[e|] rest];
        [rewrite supabase_served by by repeat constructor
        |rewrite supabase_faulted
        |rewrite supabase_served by by repeat constructor];
        cbn [serve fst snd Supabase.profiles_role Supabase.data Supabase.failed].
      2: { cbn. eexists. split; [reflexivity|]. unfold coherent. cbn. by repeat split. }
      all: destruct (Supabase.single _) as [[[r|]|] err]; cbn;
        (eexists; split; [reflexivity|]); unfold coherent; cbn; by repeat split.
  - cbn. eexists. split; [reflexivity|]. unfold coherent. cbn. by repeat split.
Qed.

(** X17. [setUserRole] keeps the state coherent, and touches the role only after
    the store has accepted it.  Without a signed-in user it does nothing at
    all.  For a signed-in user it sends one upsert of the profile with the
    chosen role: when that is served the profile is in the store, the role
    of the page is the chosen one and role selection is no longer pending;
    when it returns an error the page and the store are as before, and
    nothing is shown. *)
Theorem setUserRole_coherent (chosen : Role) (w : Client State) :
  coherent (page w) →
  ∃ w',
    setUserRole chosen w = (Resolved tt, w')
    ∧ coherent (page w')
    ∧ (user (page w) = None → w' = w)
    ∧ (∀ u, user (page w) = Some u →
         let profile := {| Profile.id := User.uid u;
                           Profile.phone := User.phoneNumber u;
                           Profile.role := Some chosen |} in
         log (env w') = log (env w) ++ [Requested (ProfilesUpsert profile)]
         ∧ user (page w') = Some u
         ∧ loading (page w') = loading (page w)
         ∧ (served 1 (faults (env w)) →
              userRole (page w') = Some chosen
              ∧ needsRoleSelection (page w') = false
              ∧ profile ∈ Supabase.profiles (store (env w')))
         ∧ (∀ e rest, faults (env w) = Some e :: rest →
              page w' = page w ∧ store (env w') = store (env w))).
Proof.
  destruct w as [pg [st ed fs lg]]. cbn [page env store edge faults log].
  intros [Hneeds Hout]. unfold setUserRole, setUserRoleState, setNeedsRoleSelection.
  run_js. destruct (user pg) as [u|] eqn:Huser.
  - destruct fs as [|[e|] rest];
      [rewrite supabase_served by by repeat constructor
      |rewrite supabase_faulted
      |rewrite supabase_served by by repeat constructor];
      cbn; (eexists; split; [reflexivity|]); cbn;
      (split; [|split; [done|]]).
    all: try (unfold coherent; cbn; rewrite ?Huser;
              first [by repeat split | split; [exact Hneeds|exact Hout]]).
    all: intros ? [= <-]; do 3 (split; [done|]).
    + split; [|by intros ? ? [=]].
      intros _. do 2 (split; [done|]). apply upsert_row_elem.
    + split.
      * intros Hs. apply served_1 in Hs as [[=]|[? [=]]].
      * by intros ? ? _.
    + split; [|by intros ? ? [=]].
      intros _. do 2 (split; [done|]). apply upsert_row_elem.
  - eexists. split; [reflexivity|]. cbn.
    split; [|split; [done|by intros ? [=]]].
    unfold coherent. by rewrite Huser.
Qed.

(** X18. [signOut] keeps the state coherent and never calls the store.  Once the
    identity provider has signed the user out (or when no provider is
    configured) the role and the pending role selection are cleared; when
    the provider's sign-out rejects, [signOut] rejects with the same error
    and the page, role included, is as before. *)
Theorem signOut_coherent (auth : option (Result unit)) (w : Client State) :
  coherent (page w) →
  ∃ r w',
    signOut auth w = (r, w')
    ∧ coherent (page w')
    ∧ env w' = env w
    ∧ user (page w') = user (page w)
    ∧ (auth = None ∨ auth = Some (Resolved tt) →
       r = Resolved tt
       ∧ userRole (page w') = None
       ∧ needsRoleSelection (page w') = false)
    ∧ (∀ e, auth = Some (Rejected e) → r = Rejected e ∧ w' = w).
Proof.
  destruct w as [pg en]. cbn [page env]. intros [Hneeds Hout].
  unfold signOut, setUserRoleState, setNeedsRoleSelection.
  destruct auth as [[[]|e]|]; run_js; do 2 eexists; (split; [reflexivity|]); cbn.
  - split; [by split|]. do 2 (split; [done|]). split; [done|]. by intros e [=].
  - split; [by split|]. do 2 (split; [done|]).
    split; [by intros [[=]|[=]]|]. by intros ? [= ->].
  - split; [by split|]. do 2 (split; [done|]). split; [done|]. by intros e [=].
Qed.
End AuthStateFacts.

(** ** The edge function, request by request *)

Section EdgeRequestFacts.
Import CreateRazorpayOrder.

Ltac request_cases :=
  repeat match goal with
    | |- context [?m !! ?k] =>
        let H := fresh "Hget" in destruct (m !! k) as [[|??]|] eqn:H
    | g : Gateway |- _ => destruct g
    | r : Result Body |- _ => destruct r
    end.

(** X19. The handler answers every request, with status 200 or 500, and never
    rejects.  It submits at most one order to the payment API, and none at
    all for a preflight request, for a body that cannot be read, or when a
    credential is missing; its environment, clock and gateway are only
    read. *)
Theorem handler_submits_at_most_once (req : HttpRequest) (w : World) :
  ∃ resp w' did,
    handler req w = (Resolved resp, w')
    ∧ (status resp = 200 ∨ status resp = 500)
    ∧ Deno_env w' = Deno_env w ∧ now w' = now w ∧ gateway w' = gateway w
    ∧ done w' = done w ++ did
    ∧ (length (submissions did) ≤ 1)%nat
    ∧ (method req = "OPTIONS"
       ∨ (∃ e, json req = Rejected e)
       ∨ missing (Deno_env w !! "Razorpay_apikey") = true
       ∨ missing (Deno_env w !! "Razorpay_key_secret") = true →
       submissions did = [])
    ∧ (method req = "OPTIONS" → resp = {| status := 200; body := NoBody |} ∧ did = []).
Proof.
  unfold handler. destruct w as [denv t0 gw dn], req as [m r].
  cbn [json method Deno_env gateway now done].
  case_decide as Hm.
  - exists {| status := 200; body := NoBody |}, {| Deno_env := denv; now := t0; gateway := gw; done := dn |}, [].
    cbn. rewrite app_nil_r. repeat split; auto.
  - run_js. cbn [json method Deno_env gateway now done].
    request_cases; cbn; do 3 eexists; (split; [reflexivity|]); cbn;
      (split; [auto|]); do 3 (split; [reflexivity|]);
      (split; [rewrite <- ?app_assoc; reflexivity|]); cbn;
      (split; [lia|]); (split; [|done]).
    all: try (intros _; reflexivity).
    all: intros [?|[[? ?]|[?|?]]]; done.
Qed.
End EdgeRequestFacts.

(** ** The phone sign-in page *)

Section PhoneAuthFacts.
Import PhoneAuth.

Ltac run_phone :=
  unfold setOtp, setStep, setIsLoading, setConfirmationResult, setIsDevMode,
    setRecaptchaVerifier, setUi, recaptcha, redirectBasedOnRole;
  run_js;
  cbn [ui context provider phone otp step isLoading confirmationResult isDevMode
       recaptchaVerifier auth recaptcha_div settles calls].

(** X20. A phone number of fewer than ten characters (the empty one included) is
    refused on the spot: [sendOTP] shows the invalid-phone toast and does
    nothing else; the page and the identity provider are as before. *)
Theorem sendOTP_short_phone (sc : Scope) st ed fs lg :
  (String.length (phone (ui sc)) < 10)%nat →
  sendOTP (world sc st ed fs lg)
  = (Resolved tt,
     world sc st ed fs
       (lg ++ [Toasted {| title := t "invalidPhone"; description := None;
                          variant := Some "destructive" |}])).
Proof.
  intros Hlen. unfold world, sendOTP. run_phone.
  apply Nat.ltb_lt in Hlen. rewrite Hlen, orb_true_r. run_phone.
  by destruct sc.
Qed.

(** X21. For a phone number that passes the checks, with the verifier and the
    provider in place, [sendOTP] asks the provider exactly once for a code,
    for a number that starts with [+]: the number as typed when it already
    starts with [+], otherwise the number prefixed with [+91].  It resolves
    with the loading state ended.  When the provider accepts, the page holds
    the confirmation result and moves to the code step; when the provider
    rejects, the page stays on its step without a confirmation result, and
    the verifier is cleared and created anew if its container is mounted. *)
Theorem sendOTP_formats_number (w : Client Scope) :
  let s := ui (page w) in
  let pr := provider (page w) in
  (10 ≤ String.length (phone s))%nat →
  phone s ≠ DEV_ADMIN_PHONE →
  recaptchaVerifier s = true →
  auth pr = true →
  ∃ w' number after,
    sendOTP w = (Resolved tt, w')
    ∧ calls (provider (page w')) = calls pr ++ SignInWithPhoneNumber number :: after
    ∧ String.prefix "+" number = true
    ∧ number = (if String.prefix "+" (phone s) then phone s else "+91" +:+ phone s)
    ∧ isLoading (ui (page w')) = false
    ∧ store (env w') = store (env w)
    ∧ (head (settles pr) = None ∨ head (settles pr) = Some None →
       confirmationResult (ui (page w')) = true
       ∧ step (ui (page w')) = otp_step
       ∧ after = [])
    ∧ (∀ e, head (settles pr) = Some (Some e) →
       confirmationResult (ui (page w')) = confirmationResult s
       ∧ step (ui (page w')) = step s
       ∧ after = (if recaptcha_div pr then [RecaptchaClear; RecaptchaNew] else [])).
Proof.
  destruct w as [[s ctx [au dv sett cl]] [st ed fs lg]].
  cbn [page env ui provider auth calls settles recaptcha_div].
  intros Hlen Hdev Hver ->. unfold sendOTP. run_phone.
  assert (truthy (phone s) = true) as ->.
  { destruct (phone s); [cbn in Hlen; lia|done]. }
  apply Nat.ltb_ge in Hlen. rewrite Hlen. cbn [negb orb].
  rewrite decide_False by done. run_phone. rewrite Hver. cbn [negb orb].
  unfold awaited. cbn [page env ui context provider auth calls settles recaptcha_div].
  assert (String.prefix "+" (if String.prefix "+" (phone s) then phone s
                             else "+91" +:+ phone s) = true) as Hplus.
  { destruct (String.prefix "+" (phone s)) eqn:Hp; [done|reflexivity]. }
  destruct sett as [|[e|] rest]; run_phone; cbn [tail].
  - do 3 eexists. split; [reflexivity|]. cbn.
    do 5 (split; [done|]). split; [done|]. by intros e [=].
  - cbn [andb]. destruct dv; run_phone;
      do 3 eexists; (split; [reflexivity|]); cbn;
      (split; [rewrite <- ?app_assoc; reflexivity|]);
      do 4 (split; [done|]); (split; [by intros [[=]|[=]]|done]).
  - do 3 eexists. split; [reflexivity|]. cbn.
    do 5 (split; [done|]). split; [done|]. by intros e [=].
Qed.

(** [verifyOTP] on a page without confirmation result: one toast, possibly
    after a console error, and nothing else. *)
Lemma verifyOTP_unconfirmed (sc : Scope) st ed fs lg :
  confirmationResult (ui sc) = false →
  ∃ s' shown did,
    verifyOTP (world sc st ed fs lg)
    = (Resolved tt,
       world {| ui := s'; context := context sc; provider := provider sc |}
         st ed fs (lg ++ did ++ [Toasted shown]))
    ∧ title shown ≠ t "loginSuccess"
    ∧ (did = [] ∨ ∃ e, did = [ConsoleError "Verify OTP error:" e])
    ∧ isDevMode s' = isDevMode (ui sc)
    ∧ step s' = step (ui sc)
    ∧ confirmationResult s' = false.
Proof.
  destruct sc as [s ctx pr]. cbn [ui context provider].
  intros Hconf. unfold world, verifyOTP. run_phone.
  destruct (negb (truthy (otp s)) || negb (String.length (otp s) =? 6)%nat);
    [|destruct (isDevMode s && bool_decide (phone s = DEV_ADMIN_PHONE)
                && bool_decide (otp s = DEV_ADMIN_OTP))];
    run_phone; rewrite ?Hconf; cbn [negb]; run_phone.
  - eexists s, _, []. split; [reflexivity|]. split; [done|]. split; [by left|done].
  - eexists s, _, []. split; [reflexivity|]. split; [done|]. split; [by left|done].
  - eexists _, _, [_]. split; [cbn [app]; rewrite <- ?app_assoc; reflexivity|].
    split; [done|]. split; [right; by eexists|done].
Qed.

(** X22. Without a confirmation result [verifyOTP] never reaches the identity
    provider and never reports a login: whatever the code, it resolves with
    the provider, the authentication context and the store untouched, makes
    no call to the backend, and no toast it shows is the login-success
    one. *)
Theorem verifyOTP_needs_confirmation (w : Client Scope) :
  confirmationResult (ui (page w)) = false →
  ∃ w' said,
    verifyOTP w = (Resolved tt, w')
    ∧ provider (page w') = provider (page w)
    ∧ context (page w') = context (page w)
    ∧ store (env w') = store (env w)
    ∧ faults (env w') = faults (env w)
    ∧ log (env w') = log (env w) ++ said
    ∧ offline said
    ∧ (∀ x, Toasted x ∈ said → title x ≠ t "loginSuccess").
Proof.
  destruct w as [sc [st ed fs lg]]. cbn [page env]. intros Hconf.
  destruct (verifyOTP_unconfirmed sc st ed fs lg Hconf)
    as (s' & shown & did & Hrun & Htitle & Hdid & _).
  unfold world in Hrun. rewrite Hrun.
  do 2 eexists. split; [reflexivity|]. cbn. do 4 (split; [done|]).
  split; [reflexivity|].
  destruct Hdid as [->|[e ->]]; cbn.
  - split; [by repeat constructor|].
    intros x [[= <-]|Hx%elem_of_nil]%elem_of_cons; done.
  - split; [by repeat constructor|].
    intros x [[=]|[[= <-]|Hx%elem_of_nil]%elem_of_cons]%elem_of_cons; done.
Qed.

(** X23. The developer shortcut for the admin phone never signs anyone in.  On a
    page without confirmation result, entering the admin phone, asking for a
    code and then submitting any code at all (the documented one included)
    only turns the developer mode on and shows toasts: the identity provider
    and the backend are never called, the authentication context is
    untouched, and no login success is reported. *)
Theorem dev_bypass_never_signs_in (w : Client Scope) (code : string) :
  phone (ui (page w)) = DEV_ADMIN_PHONE →
  confirmationResult (ui (page w)) = false →
  ∃ w' said,
    (sendOTP;; setOtp code;; verifyOTP) w = (Resolved tt, w')
    ∧ isDevMode (ui (page w')) = true
    ∧ provider (page w') = provider (page w)
    ∧ context (page w') = context (page w)
    ∧ store (env w') = store (env w)
    ∧ faults (env w') = faults (env w)
    ∧ log (env w') = log (env w) ++ said
    ∧ offline said
    ∧ (∀ x, Toasted x ∈ said → title x ≠ t "loginSuccess").
Proof.
  destruct w as [[s ctx pr] [st ed fs lg]]. cbn [page env ui context provider].
  intros Hphone Hconf.
  unfold mbind at 1 2. unfold M_bind.
  unfold sendOTP. run_phone. rewrite Hphone.
  cbn [truthy negb orb DEV_ADMIN_PHONE String.length Nat.ltb Nat.leb].
  rewrite decide_True by done. run_phone.
  match goal with
  | |- context [verifyOTP {| page := ?sc;
                             env := {| store := _; edge := _; faults := _; log := ?l |} |}] =>
      destruct (verifyOTP_unconfirmed sc st ed fs l Hconf)
        as (s' & shown & did & Hrun & Htitle & Hdid & Hdev & _)
  end.
  unfold world in Hrun. cbn [ui context provider] in Hrun. rewrite Hrun.
  do 2 eexists. split; [reflexivity|]. cbn.
  split; [exact Hdev|]. do 4 (split; [done|]).
  split; [by rewrite <- app_assoc|].
  destruct Hdid as [->|[e ->]]; cbn.
  - split; [by repeat constructor|].
    intros x [[= ->]|[[= ->]|Hx%elem_of_nil]%elem_of_cons]%elem_of_cons; done.
  - split; [by repeat constructor|].
    intros x [[= ->]|[[=]|[[= ->]|Hx%elem_of_nil]%elem_of_cons]%elem_of_cons]%elem_of_cons;
      done.
Qed.

(** [setUserRole] from any state: it resolves after at most one call. *)
Lemma setUserRole_runs (chosen : Role) (pgA : AuthContext.State) st ed fs lg :
  ∃ pgA' st' fs' did,
    AuthContext.setUserRole chosen (world pgA st ed fs lg)
    = (Resolved tt, world pgA' st' ed fs' (lg ++ did))
    ∧ toastless did
    ∧ (AuthContext.user pgA = None ∨ (∃ e rest, fs = Some e :: rest) →
       pgA' = pgA ∧ st' = st).
Proof.
  unfold world, AuthContext.setUserRole, AuthContext.setUserRoleState,
    AuthContext.setNeedsRoleSelection.
  run_js. destruct (AuthContext.user pgA) as [u|] eqn:Huser.
  - destruct fs as [|[e|] rest];
      [rewrite supabase_served by (unfold served; cbn; by repeat constructor)
      |rewrite supabase_faulted
      |rewrite supabase_served by (unfold served; cbn; by repeat constructor)];
      cbn; do 4 eexists; (split; [reflexivity|]);
      (split; [by repeat constructor|]).
    + intros [?|(? & ? & ?)]; done.
    + by intros _.
    + intros [?|(? & ? & ?)]; done.
  - do 3 eexists. exists []. split; [by rewrite app_nil_r|].
    split; [by constructor|done].
Qed.

(** X24. [handleRoleSelect] reports success whatever happened to the role: since
    [setUserRole] never rejects, the error toast of the [catch] block is
    never shown; the page always shows the login-success toast, navigates to
    the chosen role's page and ends its loading state, also when nobody is
    signed in or the store refused the role, in which case the role of the
    authentication context is as before. *)
Theorem handleRoleSelect_reports_success (selectedRole : Role) (w : Client Scope) :
  ∃ w' did,
    handleRoleSelect selectedRole w = (Resolved tt, w')
    ∧ isLoading (ui (page w')) = false
    ∧ provider (page w') = provider (page w)
    ∧ log (env w')
      = log (env w) ++ did
        ++ [Toasted {| title := t "loginSuccess"; description := None; variant := None |};
            Navigated match selectedRole with
                      | admin => "/admin"
                      | farmer => "/farmer-dashboard"
                      | buyer => "/marketplace"
                      end]
    ∧ toastless did
    ∧ (AuthContext.user (context (page w)) = None
       ∨ (∃ e rest, faults (env w) = Some e :: rest) →
       context (page w') = context (page w) ∧ store (env w') = store (env w)).
Proof.
  destruct w as [[s ctx pr] [st ed fs lg]]. cbn [page env ui context provider faults log].
  destruct (setUserRole_runs selectedRole ctx st ed fs lg)
    as (ctx' & st' & fs' & did & Hrun & Hquiet & Hsame).
  unfold world in Hrun.
  unfold handleRoleSelect, useAuth. run_phone. rewrite Hrun. run_phone.
  destruct selectedRole; cbn [role_string];
    repeat (case_decide; try discriminate); run_phone;
    (eexists; exists did; split; [reflexivity|]);
    cbn [page env ui context provider isLoading log store];
    do 2 (split; [done|]); (split; [by rewrite <- !app_assoc|]);
    (split; [done|]); intros Hnone; by destruct (Hsame Hnone) as [-> ->].
Qed.
End PhoneAuthFacts.

(** ** Writes that are read back *)

Section ReadBackFacts.

Lemma crops_by_id_after_update (patch : Crop.Patch) (i : string) (rows : list Crop.t) :
  filter (λ c, Crop.id c = i)
    ((λ c, if decide (Some (Crop.id c) = Some i) then Crop.apply patch c else c) <$> rows)
  = Crop.apply patch <$> filter (λ c, Crop.id c = i) rows.
Proof.
  induction rows as [|c rows IH]; [done|]. cbn [fmap list_fmap].
  destruct (decide (Crop.id c = i)) as [Hc|Hc].
  - rewrite decide_True by congruence.
    rewrite !filter_cons_True by done. cbn [fmap list_fmap]. by f_equal.
  - rewrite decide_False by congruence.
    rewrite !filter_cons_False by done. done.
Qed.

(** X13. The stock a buyer sees after a purchase: when the checkout handler has
    run for a loaded crop whose id has exactly one row in the store, and the
    calls are served, a following [fetchCrop] of that id shows that row with
    the stock the page had loaded minus the purchased quantity, available
    exactly when that difference is positive.  The difference is taken from
    the stock as loaded, whatever the row held by then. *)
Theorem purchase_then_refetch (cl : Razorpay.Closure) (response : Razorpay.Response)
    (w : Client CropDetail.State) (c r : Crop.t) :
  Razorpay.crop cl = Some c →
  filter (λ x, Crop.id x = Crop.id c) (Supabase.crops (store (env w))) = [r] →
  served 3 (faults (env w)) →
  ∃ w' shown,
    (CropDetail.handler cl response;; CropDetail.fetchCrop (Crop.id c)) w
    = (Resolved tt, w')
    ∧ CropDetail.crop (page w') = Some shown
    ∧ Crop.quantity_kg shown = Crop.quantity_kg c - Razorpay.quantity cl
    ∧ (Crop.available shown = true ↔ Crop.quantity_kg c - Razorpay.quantity cl > 0)
    ∧ Crop.id shown = Crop.id c
    ∧ Crop.name shown = Crop.name r
    ∧ Crop.price_per_kg shown = Crop.price_per_kg r
    ∧ Crop.farmer_id shown = Crop.farmer_id r.
Proof.
  destruct w as [pg [st ed fs lg]]. cbn [page env store edge faults log].
  intros Hc Hrow [H1 [H2 [H3 _]%served_S]%served_S]%served_S.
  assert (served 2 fs) as H12.
  { unfold served in *. destruct fs as [|? [|? ?]]; cbn in *; try done.
    apply Forall_cons in H1 as [-> _]. apply Forall_cons in H2 as [-> _].
    by repeat constructor. }
  unfold mbind, M_bind. rewrite handler_served by done. cbn zeta.
  rewrite Hc. cbn [fmap option_fmap option_map]. rewrite num_or_0.
  unfold CropDetail.fetchCrop, CropDetail.setCrop, CropDetail.setLoading. run_js.
  rewrite supabase_served by done.
  cbn [serve fst snd Supabase.crops_by_id Supabase.crops_update Supabase.orders_insert
       Supabase.crops].
  rewrite crops_by_id_after_update, Hrow. cbn.
  do 2 eexists. split; [reflexivity|]. cbn.
  split; [done|]. split; [done|]. unfold Crop.apply.
  cbn [Crop.available Crop.id Crop.name Crop.price_per_kg Crop.farmer_id
       Crop.patch_available].
  split; [by rewrite bool_decide_eq_true|].
  assert (r ∈ filter (λ x, Crop.id x = Crop.id c) (Supabase.crops st)) as Hin
    by (rewrite Hrow; by left).
  apply list_elem_of_filter in Hin as [Hid _]. done.
Qed.

(** X7. A chat that was created is listed: when the store has no chat for the
    buyer, farmer and crop and the calls are served, [findOrCreateChat]
    followed by [fetchChats] for the same user shows, among the user's
    chats, the chat of that buyer, farmer and crop, and that chat is the
    active one. *)
Theorem chat_created_then_listed (u : User.t) (farmerId cropId : string)
    (w : Client Chat.State) :
  Supabase.chats_matching (User.uid u) farmerId cropId
    (Supabase.chats (store (env w))) = [] →
  served 3 (faults (env w)) →
  ∃ w' chat,
    (Chat.findOrCreateChat (Some u) farmerId cropId;; Chat.fetchChats (Some u)) w
    = (Resolved tt, w')
    ∧ chat ∈ Chat.chats (page w')
    ∧ ChatRoom.buyer_id chat = User.uid u
    ∧ ChatRoom.farmer_id chat = farmerId
    ∧ ChatRoom.crop_id chat = Some cropId
    ∧ Chat.activeChat (page w') = Some (ChatRoom.id chat).
Proof.
  destruct w as [pg [st ed fs lg]]. cbn [page env store edge faults log].
  intros Hnone [H1 [H2 [H3 _]%served_S]%served_S]%served_S.
  assert (served 2 fs) as H12.
  { unfold served in *. destruct fs as [|? [|? ?]]; cbn in *; try done.
    apply Forall_cons in H1 as [-> _]. apply Forall_cons in H2 as [-> _].
    by repeat constructor. }
  unfold mbind, M_bind. rewrite findOrCreateChat_new by done. cbn zeta.
  unfold Chat.fetchChats, Chat.setChats, Chat.setLoading. run_js.
  rewrite supabase_served by done. cbn.
  eexists.
  exists (ChatRoom.row (Supabase.fresh_id "chat" st) (Supabase.tick st)
            {| ChatRoom.ins_buyer_id := User.uid u; ChatRoom.ins_farmer_id := farmerId;
               ChatRoom.ins_crop_id := cropId |}).
  split; [reflexivity|]. cbn. split; [|done].
  rewrite merge_sort_Permutation, filter_app, elem_of_app. right.
  rewrite filter_cons_True by (cbn; by left). by left.
Qed.
End ReadBackFacts.

(** ** The further properties at work on the sample market *)

Lemma fetchChats_newest_first_witness :
  served 1 (faults (env (Sample.later_chat_page [])))
  ∧ ∃ w',
      Chat.fetchChats (Some Sample.asha) (Sample.later_chat_page []) = (Resolved tt, w')
      ∧ StronglySorted (λ a b, ChatRoom.updated_at b ≤ ChatRoom.updated_at a)
          (Chat.chats (page w'))
      ∧ Chat.chats (page w') ≡ₚ [Sample.rice_chat; Sample.millet_chat]
      ∧ Chat.chats (page w') = [Sample.millet_chat; Sample.rice_chat]
      ∧ Chat.loading (page w') = false.
Proof.
  assert (served 1 (faults (env (Sample.later_chat_page [])))) as H1 by (by vm_compute).
  split; [exact H1|].
  destruct (fetchChats_newest_first Sample.asha (Sample.later_chat_page []) H1)
    as (w' & Hrun & Hsorted & Hperm & Hloading & _).
  exists w'. split; [exact Hrun|]. split; [exact Hsorted|]. split; [exact Hperm|].
  split; [|exact Hloading].
  apply (f_equal snd) in Hrun. cbn [snd] in Hrun. by rewrite <- Hrun.
Defined.

Lemma sendMessage_guards_witness :
  trim (Chat.newMessage (page (Sample.chat_page []))) = ""
  ∧ Chat.sendMessage (Some Sample.asha) (Sample.chat_page [])
    = (Resolved tt, Sample.chat_page []).
Proof.
  assert (trim (Chat.newMessage (page (Sample.chat_page []))) = "") as H1 by reflexivity.
  split; [exact H1|].
  exact (sendMessage_guards (Some Sample.asha) (Sample.chat_page []) (or_introl H1)).
Defined.

Lemma sendMessage_then_fetch_witness :
  Chat.activeChat (Sample.typing "chat-0" " Namaste ") = Some "chat-0"
  ∧ "chat-0" ≠ ""
  ∧ trim (Chat.newMessage (Sample.typing "chat-0" " Namaste ")) ≠ ""
  ∧ served 3 []
  ∧ ∃ w' sent,
      (Chat.sendMessage (Some Sample.asha);; Chat.fetchMessages "chat-0")
        (world (Sample.typing "chat-0" " Namaste ") Sample.market
           (Sample.deployed (CreateRazorpayOrder.Created "order_R1")) [] [])
      = (Resolved tt, w')
      ∧ Message.content sent = "Namaste"
      ∧ Chat.messages (page w') ≡ₚ [Sample.hello; Sample.reply1; sent].
Proof.
  assert (Chat.activeChat (Sample.typing "chat-0" " Namaste ") = Some "chat-0") as H1
    by reflexivity.
  assert ("chat-0" ≠ "") as H2 by discriminate.
  assert (trim (Chat.newMessage (Sample.typing "chat-0" " Namaste ")) ≠ "") as H3
    by (vm_compute; discriminate).
  assert (served 3 []) as H4 by (by vm_compute).
  do 4 (split; [done|]).
  destruct (sendMessage_then_fetch Sample.asha
              (world (Sample.typing "chat-0" " Namaste ") Sample.market
                 (Sample.deployed (CreateRazorpayOrder.Created "order_R1")) [] [])
              "chat-0" H1 H2 H3 H4)
    as (w' & sent & Hrun & Hcontent & _ & _ & _ & Hperm & _).
  exists w', sent. split; [exact Hrun|]. split; [exact Hcontent|exact Hperm].
Defined.

Lemma sendMessage_failure_keeps_draft_witness :
  Chat.activeChat (Sample.typing "chat-0" "Namaste") = Some "chat-0"
  ∧ "chat-0" ≠ ""
  ∧ trim (Chat.newMessage (Sample.typing "chat-0" "Namaste")) ≠ ""
  ∧ page (Chat.sendMessage (Some Sample.asha)
            (world (Sample.typing "chat-0" "Namaste") Sample.market
               (Sample.deployed (CreateRazorpayOrder.Created "order_R1"))
               [Some Sample.timeout] [])).2
    = Sample.typing "chat-0" "Namaste".
Proof.
  assert (Chat.activeChat (Sample.typing "chat-0" "Namaste") = Some "chat-0") as H1
    by reflexivity.
  assert ("chat-0" ≠ "") as H2 by discriminate.
  assert (trim (Chat.newMessage (Sample.typing "chat-0" "Namaste")) ≠ "") as H3
    by (vm_compute; discriminate).
  do 3 (split; [done|]).
  by rewrite (sendMessage_failure_keeps_draft Sample.asha
                (Sample.typing "chat-0" "Namaste") Sample.market
                (Sample.deployed (CreateRazorpayOrder.Created "order_R1"))
                Sample.timeout [] [] "chat-0" H1 H2 H3).
Defined.

Lemma sendMessage_touch_failure_silent_witness :
  Chat.activeChat (Sample.typing "chat-0" "Namaste") = Some "chat-0"
  ∧ "chat-0" ≠ ""
  ∧ trim (Chat.newMessage (Sample.typing "chat-0" "Namaste")) ≠ ""
  ∧ toastless
      (log (env (Chat.sendMessage (Some Sample.asha)
                   (world (Sample.typing "chat-0" "Namaste") Sample.market
                      (Sample.deployed (CreateRazorpayOrder.Created "order_R1"))
                      [None; Some Sample.timeout] [])).2)).
Proof.
  assert (Chat.activeChat (Sample.typing "chat-0" "Namaste") = Some "chat-0") as H1
    by reflexivity.
  assert ("chat-0" ≠ "") as H2 by discriminate.
  assert (trim (Chat.newMessage (Sample.typing "chat-0" "Namaste")) ≠ "") as H3
    by (vm_compute; discriminate).
  do 3 (split; [done|]).
  destruct (sendMessage_touch_failure_silent Sample.asha
              (Sample.typing "chat-0" "Namaste") Sample.market
              (Sample.deployed (CreateRazorpayOrder.Created "order_R1"))
              Sample.timeout [] [] "chat-0" H1 H2 H3) as [Hrun _].
  rewrite Hrun. by repeat constructor.
Defined.

Lemma onInsert_keeps_order_witness :
  StronglySorted (λ a b, Message.created_at a ≤ Message.created_at b)
    (Chat.messages (page (Chat.fetchMessages "chat-0" (Sample.chat_page [])).2))
  ∧ (∀ m, m ∈ Chat.messages (page (Chat.fetchMessages "chat-0" (Sample.chat_page [])).2) →
          Message.created_at m ≤ Message.created_at (Message.row "message-9" 9
            {| Message.ins_chat_id := "chat-0"; Message.ins_sender_id := "uid-ravi";
               Message.ins_content := "Yes" |}))
  ∧ ∃ w',
      Chat.onInsert (Message.row "message-9" 9
                       {| Message.ins_chat_id := "chat-0";
                          Message.ins_sender_id := "uid-ravi";
                          Message.ins_content := "Yes" |})
        (Chat.fetchMessages "chat-0" (Sample.chat_page [])).2
      = (Resolved tt, w')
      ∧ Message.content <$> Chat.messages (page w')
        = ["Harvested today"; "Is it fresh?"; "Yes"].
Proof.
  assert (StronglySorted (λ a b, Message.created_at a ≤ Message.created_at b)
            (Chat.messages (page (Chat.fetchMessages "chat-0" (Sample.chat_page [])).2)))
    as H1.
  { vm_compute. repeat constructor; discriminate. }
  assert (∀ m, m ∈ Chat.messages (page (Chat.fetchMessages "chat-0" (Sample.chat_page [])).2) →
               Message.created_at m ≤ Message.created_at (Message.row "message-9" 9
                 {| Message.ins_chat_id := "chat-0"; Message.ins_sender_id := "uid-ravi";
                    Message.ins_content := "Yes" |})) as H2.
  { intros m Hm. vm_compute in Hm.
    apply elem_of_cons in Hm as [->|Hm]; [vm_compute; discriminate|].
    apply elem_of_cons in Hm as [->|Hm]; [vm_compute; discriminate|].
    by apply elem_of_nil in Hm. }
  do 2 (split; [done|]).
  destruct (onInsert_keeps_order _ _ H1 H2) as (w' & Hrun & Hmsgs & _).
  exists w'. split; [exact Hrun|]. by rewrite Hmsgs.
Defined.

Lemma handlePayment_edge_failure_witness :
  trim (CropDetail.address (page (Sample.crop_page 3 "12 Main Rd" []))) ≠ ""
  ∧ CropDetail.quantity (page (Sample.crop_page 3 "12 Main Rd" []))
    ≤ num_or (Crop.quantity_kg
                <$> CropDetail.crop (page (Sample.crop_page 3 "12 Main Rd" []))) 0
  ∧ served 1 []
  ∧ failure {| CreateRazorpayOrder.method := "POST";
               CreateRazorpayOrder.json :=
                 Resolved (invoke_body (page (Sample.crop_page 3 "12 Main Rd" []))) |}
      (Sample.deployed (CreateRazorpayOrder.Refused "Authentication failed"))
  ∧ offline
      (drop 1 (log (env (CropDetail.handlePayment (Some Sample.asha)
                           (world (page (Sample.crop_page 3 "12 Main Rd" []))
                              Sample.market
                              (Sample.deployed
                                 (CreateRazorpayOrder.Refused "Authentication failed"))
                              [] [])).2))).
Proof.
  assert (trim (CropDetail.address (page (Sample.crop_page 3 "12 Main Rd" []))) ≠ "")
    as H1 by (vm_compute; discriminate).
  assert (CropDetail.quantity (page (Sample.crop_page 3 "12 Main Rd" []))
          ≤ num_or (Crop.quantity_kg
                      <$> CropDetail.crop (page (Sample.crop_page 3 "12 Main Rd" []))) 0)
    as H2 by (vm_compute; discriminate).
  assert (served 1 []) as H3 by (by vm_compute).
  assert (failure {| CreateRazorpayOrder.method := "POST";
                     CreateRazorpayOrder.json :=
                       Resolved (invoke_body (page (Sample.crop_page 3 "12 Main Rd" []))) |}
            (Sample.deployed (CreateRazorpayOrder.Refused "Authentication failed")))
    as H4 by (unfold failure; do 4 right; left; by eexists).
  do 4 (split; [done|]).
  destruct (handlePayment_edge_failure Sample.asha
              (page (Sample.crop_page 3 "12 Main Rd" [])) Sample.market
              (Sample.deployed (CreateRazorpayOrder.Refused "Authentication failed"))
              [] [] H1 H2 H3 H4) as [ed' Hrun].
  rewrite Hrun. by repeat constructor.
Defined.

Lemma checkout_amount_submitted_witness :
  CropDetail.crop (page (Sample.crop_page 3 "12 Main Rd" [])) = Some Sample.rice
  ∧ trim (CropDetail.address (page (Sample.crop_page 3 "12 Main Rd" []))) ≠ ""
  ∧ CropDetail.quantity (page (Sample.crop_page 3 "12 Main Rd" []))
    ≤ Crop.quantity_kg Sample.rice
  ∧ served 1 (faults (env (Sample.crop_page 3 "12 Main Rd" [])))
  ∧ configured (edge (env (Sample.crop_page 3 "12 Main Rd" [])))
  ∧ ∃ w' did f,
      CropDetail.handlePayment (Some Sample.asha) (Sample.crop_page 3 "12 Main Rd" [])
      = (Resolved tt, w')
      ∧ submissions did = [f]
      ∧ CreateRazorpayOrder.order_amount (CreateRazorpayOrder.fetch_body f) = 12000.
Proof.
  assert (CropDetail.crop (page (Sample.crop_page 3 "12 Main Rd" [])) = Some Sample.rice)
    as H1 by reflexivity.
  assert (trim (CropDetail.address (page (Sample.crop_page 3 "12 Main Rd" []))) ≠ "")
    as H2 by (vm_compute; discriminate).
  assert (CropDetail.quantity (page (Sample.crop_page 3 "12 Main Rd" []))
          ≤ Crop.quantity_kg Sample.rice) as H3 by (vm_compute; discriminate).
  assert (served 1 (faults (env (Sample.crop_page 3 "12 Main Rd" [])))) as H4
    by (by vm_compute).
  assert (configured (edge (env (Sample.crop_page 3 "12 Main Rd" [])))) as H5
    by (split; reflexivity).
  do 5 (split; [done|]).
  destruct (checkout_amount_submitted Sample.asha (Sample.crop_page 3 "12 Main Rd" [])
              Sample.rice H1 H2 H3 H4 H5)
    as (w' & did & f & Hrun & _ & Hsub & Hamount & _).
  exists w', did, f. split; [exact Hrun|]. split; [exact Hsub|exact Hamount].
Defined.

Lemma quantity_input_clamped_witness :
  CropDetail.crop (page (Sample.crop_page 1 "12 Main Rd" [])) = Some Sample.rice
  ∧ trim (CropDetail.address (page (Sample.crop_page 1 "12 Main Rd" []))) ≠ ""
  ∧ ∃ w' outcome,
      (CropDetail.onQuantityChange Sample.rice 25;;
       CropDetail.handlePayment (Some Sample.asha))
        (Sample.crop_page 1 "12 Main Rd" [])
      = (Resolved tt, w')
      ∧ CropDetail.quantity (page w') = 10
      ∧ log (env w')
        = [Requested (FunctionsInvoke "create-razorpay-order"
                        {| CreateRazorpayOrder.amount := 400;
                           CreateRazorpayOrder.cropId := Some "crop-rice";
                           CreateRazorpayOrder.quantity := 10 |});
           outcome].
Proof.
  assert (CropDetail.crop (page (Sample.crop_page 1 "12 Main Rd" [])) = Some Sample.rice)
    as H1 by reflexivity.
  assert (trim (CropDetail.address (page (Sample.crop_page 1 "12 Main Rd" []))) ≠ "")
    as H2 by (vm_compute; discriminate).
  do 2 (split; [done|]).
  destruct (quantity_input_clamped Sample.asha (Sample.crop_page 1 "12 Main Rd" [])
              Sample.rice 25 H1 H2) as (w' & outcome & Hrun & Hq & _ & Hlog).
  exists w', outcome. split; [exact Hrun|]. split; [exact Hq|exact Hlog].
Defined.

Lemma fetchCrop_outcomes_witness :
  served 1 (faults (env (Sample.crop_page 1 "" [])))
  ∧ ∃ w',
      CropDetail.fetchCrop "crop-rice" (Sample.crop_page 1 "" []) = (Resolved tt, w')
      ∧ CropDetail.crop (page w') = Some Sample.rice
      ∧ CropDetail.loading (page w') = false.
Proof.
  assert (served 1 (faults (env (Sample.crop_page 1 "" [])))) as H1 by (by vm_compute).
  split; [exact H1|].
  destruct (fetchCrop_outcomes "crop-rice" (Sample.crop_page 1 "" []) H1)
    as (w' & Hrun & Hloading & _ & Hfound & _).
  exists w'. split; [exact Hrun|]. split; [|exact Hloading].
  by apply (Hfound Sample.rice).
Defined.

Lemma fetchOrders_of_undefined_witness :
  from_provider Sample.asha
  ∧ served 1 (faults (env (Sample.later_orders_page [])))
  ∧ Order.id <$> Supabase.orders (store (env (Sample.later_orders_page [])))
    = ["order-7"; "order-8"]
  ∧ ∃ w',
      Orders.fetchOrders (Some Sample.asha) (Sample.later_orders_page [])
      = (Resolved tt, w')
      ∧ log (env w') = [Requested (OrdersOf "undefined")]
      ∧ Orders.orders (page w') ≡ₚ []
      ∧ (Sample.asha_order ∉ Orders.orders (page w'))
      ∧ Orders.loading (page w') = false.
Proof.
  assert (from_provider Sample.asha) as H1 by reflexivity.
  assert (served 1 (faults (env (Sample.later_orders_page [])))) as H2 by (by vm_compute).
  do 3 (split; [done|]).
  destruct (fetchOrders_of_undefined Sample.asha (Sample.later_orders_page []) H1 H2)
    as (w' & Hrun & Hlog & _ & Hperm & Hnot & Hloading & _).
  exists w'. split; [exact Hrun|]. split; [exact Hlog|]. split; [exact Hperm|].
  split; [|exact Hloading].
  apply Hnot; discriminate.
Defined.

Lemma purchase_not_listed_witness :
  from_provider (Razorpay.user Sample.purchase)
  ∧ (Crop.farmer_id <$> Razorpay.crop Sample.purchase) ≠ Some "undefined"
  ∧ served 3 (faults (env (Sample.crop_page 3 "12 Main Rd" [])))
  ∧ ∃ wc' wo' order,
      CropDetail.handler Sample.purchase Sample.paid_response
        (Sample.crop_page 3 "12 Main Rd" []) = (Resolved tt, wc')
      ∧ Orders.fetchOrders (Some Sample.asha)
          {| page := page (Sample.orders_page []); env := env wc' |}
        = (Resolved tt, wo')
      ∧ Supabase.orders (store (env wo')) = [order]
      ∧ Order.status order = paid
      ∧ Order.razorpay_payment_id order = Some "pay_P1"
      ∧ Order.buyer_id order = None
      ∧ Orders.orders (page wo') ≡ₚ [].
Proof.
  assert (from_provider (Razorpay.user Sample.purchase)) as H1 by reflexivity.
  assert ((Crop.farmer_id <$> Razorpay.crop Sample.purchase) ≠ Some "undefined") as H2
    by discriminate.
  assert (served 3 (faults (env (Sample.crop_page 3 "12 Main Rd" [])))) as H3
    by (by vm_compute).
  do 3 (split; [done|]).
  destruct (purchase_not_listed Sample.purchase Sample.paid_response
              (Sample.crop_page 3 "12 Main Rd" []) (page (Sample.orders_page [])) H1 H2 H3)
    as (wc' & wo' & order & Hrun & Hfetch & Hstored & Hstatus & _ & Hpay & Hbuyer
        & _ & Hlisted).
  exists wc', wo', order. done.
Defined.

Lemma setUserRole_coherent_witness :
  coherent (page (world Sample.signed_in Sample.market
                    (Sample.deployed (CreateRazorpayOrder.Created "order_R1")) [] []))
  ∧ ∃ w',
      AuthContext.setUserRole farmer
        (world Sample.signed_in Sample.market
           (Sample.deployed (CreateRazorpayOrder.Created "order_R1")) [] [])
      = (Resolved tt, w')
      ∧ coherent (page w')
      ∧ AuthContext.userRole (page w') = Some farmer
      ∧ AuthContext.needsRoleSelection (page w') = false
      ∧ {| Profile.id := "uid-asha"; Profile.phone := Some "+911234567890";
           Profile.role := Some farmer |} ∈ Supabase.profiles (store (env w')).
Proof.
  assert (coherent (page (world Sample.signed_in Sample.market
                            (Sample.deployed (CreateRazorpayOrder.Created "order_R1"))
                            [] []))) as H1.
  { split; cbn; [by split|discriminate]. }
  split; [exact H1|].
  destruct (setUserRole_coherent farmer _ H1) as (w' & Hrun & Hcoh & _ & Hin).
  destruct (Hin Sample.asha eq_refl) as (_ & _ & _ & Hserved & _).
  destruct Hserved as (Hrole & Hneeds & Hprofile); [by vm_compute|].
  exists w'. split; [exact Hrun|]. split; [exact Hcoh|]. split; [exact Hrole|].
  split; [exact Hneeds|exact Hprofile].
Defined.

Lemma signOut_coherent_witness :
  coherent (page (world Sample.signed_in Sample.market
                    (Sample.deployed (CreateRazorpayOrder.Created "order_R1")) [] []))
  ∧ ∃ w',
      AuthContext.signOut (Some (Resolved tt))
        (world Sample.signed_in Sample.market
           (Sample.deployed (CreateRazorpayOrder.Created "order_R1")) [] [])
      = (Resolved tt, w')
      ∧ AuthContext.needsRoleSelection (page w') = false.
Proof.
  assert (coherent (page (world Sample.signed_in Sample.market
                            (Sample.deployed (CreateRazorpayOrder.Created "order_R1"))
                            [] []))) as H1.
  { split; cbn; [by split|discriminate]. }
  split; [exact H1|].
  destruct (signOut_coherent (Some (Resolved tt)) _ H1)
    as (r & w' & Hrun & _ & _ & _ & Hok & _).
  destruct (Hok (or_intror eq_refl)) as (-> & _ & Hneeds).
  exists w'. split; [exact Hrun|exact Hneeds].
Defined.

Lemma sendOTP_short_phone_witness :
  (String.length (PhoneAuth.phone (PhoneAuth.ui (Sample.phone_page "98765" ""))) < 10)%nat
  ∧ page (PhoneAuth.sendOTP
            (world (Sample.phone_page "98765" "") Sample.market
               (Sample.deployed (CreateRazorpayOrder.Created "order_R1")) [] [])).2
    = Sample.phone_page "98765" "".
Proof.
  assert (String.length (PhoneAuth.phone (PhoneAuth.ui (Sample.phone_page "98765" "")))
          < 10)%nat as H1 by (vm_compute; lia).
  split; [exact H1|].
  by rewrite (sendOTP_short_phone (Sample.phone_page "98765" "") Sample.market
                (Sample.deployed (CreateRazorpayOrder.Created "order_R1")) [] [] H1).
Defined.

Lemma sendOTP_formats_number_witness :
  (10 ≤ String.length (PhoneAuth.phone (PhoneAuth.ui (Sample.phone_page "9876543210" ""))))%nat
  ∧ PhoneAuth.phone (PhoneAuth.ui (Sample.phone_page "9876543210" ""))
    ≠ PhoneAuth.DEV_ADMIN_PHONE
  ∧ PhoneAuth.recaptchaVerifier (PhoneAuth.ui (Sample.phone_page "9876543210" "")) = true
  ∧ PhoneAuth.auth (PhoneAuth.provider (Sample.phone_page "9876543210" "")) = true
  ∧ ∃ w',
      PhoneAuth.sendOTP
        (world (Sample.phone_page "9876543210" "") Sample.market
           (Sample.deployed (CreateRazorpayOrder.Created "order_R1")) [] [])
      = (Resolved tt, w')
      ∧ PhoneAuth.calls (PhoneAuth.provider (page w'))
        = [PhoneAuth.SignInWithPhoneNumber "+919876543210"]
      ∧ PhoneAuth.step (PhoneAuth.ui (page w')) = PhoneAuth.otp_step.
Proof.
  assert (10 ≤ String.length
                 (PhoneAuth.phone (PhoneAuth.ui (Sample.phone_page "9876543210" ""))))%nat
    as H1 by (vm_compute; lia).
  assert (PhoneAuth.phone (PhoneAuth.ui (Sample.phone_page "9876543210" ""))
          ≠ PhoneAuth.DEV_ADMIN_PHONE) as H2 by discriminate.
  assert (PhoneAuth.recaptchaVerifier (PhoneAuth.ui (Sample.phone_page "9876543210" ""))
          = true) as H3 by reflexivity.
  assert (PhoneAuth.auth (PhoneAuth.provider (Sample.phone_page "9876543210" "")) = true)
    as H4 by reflexivity.
  do 4 (split; [done|]).
  destruct (sendOTP_formats_number
              (world (Sample.phone_page "9876543210" "") Sample.market
                 (Sample.deployed (CreateRazorpayOrder.Created "order_R1")) [] [])
              H1 H2 H3 H4)
    as (w' & number & after & Hrun & Hcalls & _ & Hnumber & _ & _ & Hok & _).
  destruct (Hok (or_introl eq_refl)) as (_ & Hstep & ->).
  exists w'. split; [exact Hrun|]. split; [|exact Hstep].
  rewrite Hcalls, Hnumber. reflexivity.
Defined.

Lemma verifyOTP_needs_confirmation_witness :
  PhoneAuth.confirmationResult
    (PhoneAuth.ui (page (world (Sample.phone_page "9876543210" "123456") Sample.market
                           (Sample.deployed (CreateRazorpayOrder.Created "order_R1")) [] [])))
  = false
  ∧ ∃ w' said,
      PhoneAuth.verifyOTP
        (world (Sample.phone_page "9876543210" "123456") Sample.market
           (Sample.deployed (CreateRazorpayOrder.Created "order_R1")) [] [])
      = (Resolved tt, w')
      ∧ PhoneAuth.provider (page w')
        = PhoneAuth.provider (Sample.phone_page "9876543210" "123456")
      ∧ log (env w') = said
      ∧ offline said.
Proof.
  assert (PhoneAuth.confirmationResult
            (PhoneAuth.ui (page (world (Sample.phone_page "9876543210" "123456")
                                   Sample.market
                                   (Sample.deployed (CreateRazorpayOrder.Created "order_R1"))
                                   [] []))) = false) as H1 by reflexivity.
  split; [exact H1|].
  destruct (verifyOTP_needs_confirmation _ H1)
    as (w' & said & Hrun & Hprov & _ & _ & _ & Hlog & Hoff & _).
  exists w', said. split; [exact Hrun|]. split; [exact Hprov|]. split; [exact Hlog|exact Hoff].
Defined.

Lemma dev_bypass_never_signs_in_witness :
  PhoneAuth.phone
    (PhoneAuth.ui (page (world (Sample.phone_page "9381179867" "") Sample.market
                           (Sample.deployed (CreateRazorpayOrder.Created "order_R1")) [] [])))
  = PhoneAuth.DEV_ADMIN_PHONE
  ∧ PhoneAuth.confirmationResult
      (PhoneAuth.ui (page (world (Sample.phone_page "9381179867" "") Sample.market
                             (Sample.deployed (CreateRazorpayOrder.Created "order_R1")) [] [])))
    = false
  ∧ ∃ w',
      (PhoneAuth.sendOTP;; PhoneAuth.setOtp "567890";; PhoneAuth.verifyOTP)
        (world (Sample.phone_page "9381179867" "") Sample.market
           (Sample.deployed (CreateRazorpayOrder.Created "order_R1")) [] [])
      = (Resolved tt, w')
      ∧ PhoneAuth.calls (PhoneAuth.provider (page w')) = []
      ∧ PhoneAuth.context (page w') = Sample.signed_in.
Proof.
  assert (PhoneAuth.phone
            (PhoneAuth.ui (page (world (Sample.phone_page "9381179867" "") Sample.market
                                   (Sample.deployed (CreateRazorpayOrder.Created "order_R1"))
                                   [] []))) = PhoneAuth.DEV_ADMIN_PHONE) as H1 by reflexivity.
  assert (PhoneAuth.confirmationResult
            (PhoneAuth.ui (page (world (Sample.phone_page "9381179867" "") Sample.market
                                   (Sample.deployed (CreateRazorpayOrder.Created "order_R1"))
                                   [] []))) = false) as H2 by reflexivity.
  do 2 (split; [done|]).
  destruct (dev_bypass_never_signs_in _ "567890" H1 H2)
    as (w' & said & Hrun & _ & Hprov & Hctx & _).
  exists w'. split; [exact Hrun|]. split; [by rewrite Hprov|exact Hctx].
Defined.

Lemma purchase_then_refetch_witness :
  Razorpay.crop Sample.purchase = Some Sample.rice
  ∧ filter (λ x, Crop.id x = Crop.id Sample.rice)
      (Supabase.crops (store (env (Sample.crop_page 3 "12 Main Rd" []))))
    = [Sample.rice]
  ∧ served 3 (faults (env (Sample.crop_page 3 "12 Main Rd" [])))
  ∧ ∃ w' shown,
      (CropDetail.handler Sample.purchase Sample.paid_response;;
       CropDetail.fetchCrop (Crop.id Sample.rice))
        (Sample.crop_page 3 "12 Main Rd" [])
      = (Resolved tt, w')
      ∧ CropDetail.crop (page w') = Some shown
      ∧ Crop.quantity_kg shown = 7.
Proof.
  assert (Razorpay.crop Sample.purchase = Some Sample.rice) as H1 by reflexivity.
  assert (filter (λ x, Crop.id x = Crop.id Sample.rice)
            (Supabase.crops (store (env (Sample.crop_page 3 "12 Main Rd" []))))
          = [Sample.rice]) as H2 by (by vm_compute).
  assert (served 3 (faults (env (Sample.crop_page 3 "12 Main Rd" [])))) as H3
    by (by vm_compute).
  do 3 (split; [done|]).
  destruct (purchase_then_refetch Sample.purchase Sample.paid_response
              (Sample.crop_page 3 "12 Main Rd" []) Sample.rice Sample.rice H1 H2 H3)
    as (w' & shown & Hrun & Hshown & Hq & _).
  exists w', shown. split; [exact Hrun|]. split; [exact Hshown|exact Hq].
Defined.

Lemma chat_created_then_listed_witness :
  Supabase.chats_matching (User.uid Sample.asha) "uid-ravi" "crop-rice"
    (Supabase.chats (store (env (Sample.chat_page [])))) = []
  ∧ served 3 (faults (env (Sample.chat_page [])))
  ∧ ∃ w' chat,
      (Chat.findOrCreateChat (Some Sample.asha) "uid-ravi" "crop-rice";;
       Chat.fetchChats (Some Sample.asha)) (Sample.chat_page [])
      = (Resolved tt, w')
      ∧ chat ∈ Chat.chats (page w')
      ∧ ChatRoom.farmer_id chat = "uid-ravi"
      ∧ Chat.activeChat (page w') = Some (ChatRoom.id chat).
Proof.
  assert (Supabase.chats_matching (User.uid Sample.asha) "uid-ravi" "crop-rice"
            (Supabase.chats (store (env (Sample.chat_page [])))) = []) as H1
    by reflexivity.
  assert (served 3 (faults (env (Sample.chat_page [])))) as H2 by (by vm_compute).
  do 2 (split; [done|]).
  destruct (chat_created_then_listed Sample.asha "uid-ravi" "crop-rice"
              (Sample.chat_page []) H1 H2)
    as (w' & chat & Hrun & Hin & _ & Hfarmer & _ & Hactive).
  exists w', chat. done.
Defined.
